(** * statusInfo: event multiplexing and status composition

    A shallow embedding of [statusInfo-v7-udev.c] and [config.h]:
    the fragment producers, the netlink wireless query, the udev
    dispatch with its slot array, the periodic status composition and
    the poll loop of [main].

    Conventions.
    - A C string is a [string] (the bytes before the terminating NUL);
      a [char buf[N]] holds a string of at most [N-1] characters.
    - [int] and [long] values are [Z] and the arithmetic is exact.
      Signed overflow is undefined in C: a statement that depends on a
      computed number takes its inputs inside the range where the C
      computation does not overflow ([LONG_MIN], [LONG_MAX]).
      Integer division is C's truncating division, [Z.quot].
    - What the C code leaves undefined (a NULL dereference, a division
      by zero) is the result [None] of the embedded function; a blocking
      wait that never returns is [None] as well where noted.
    - Everything the program reads from its environment during one
      loop iteration (the result of [poll], the device record, sysfs
      values, netlink messages, the result of the sink) is a field of an
      explicit environment record passed to the embedded function. *)

From Stdlib Require Import ZArith Ascii DecimalString.
From Stdlib Require DecimalZ.
From stdpp Require Import base list strings.

Local Open Scope Z_scope.

(** ** config.h *)

Module Config.

Definition STATUS_TIMEOUT : Z := 10000.
Definition NOTIFY_TIMEOUT : Z := 2000.
Definition MX_STATUS_CHARS : Z := 192.
Definition MX_ELEMENT_CHARS : Z := 32.
Definition MX_NUMBER_ELEMENTS : Z := Z.quot MX_STATUS_CHARS MX_ELEMENT_CHARS.

Definition BATTERY_NAME : string := "BAT1".
Definition ADAPTOR_NAME : string := "AC".
Definition si_separator : string := " ".

End Config.

Import Config.

(** ** The libc string primitives the program uses *)

Module CStr.

(** The first [n] characters of [s]. *)
Fixpoint str_take (n : nat) (s : string) : string :=
  match n, s with
  | S n', String c r => String c (str_take n' r)
  | _, _ => ""
  end.

(** [snprintf(buf, size, fmt, ...)] where [s] is the fully formatted
    text: at most [size-1] characters are stored. *)
Definition snprintf (size : Z) (s : string) : string :=
  str_take (Z.to_nat (size - 1)) s.

(** [strncat(dest, src, n)]: appends at most [n] characters of [src]. *)
Definition strncat (dest src : string) (n : Z) : string :=
  dest +:+ str_take (Z.to_nat n) src.

Definition strlen (s : string) : Z := Z.of_nat (String.length s).

(** [%li] and [%d]/[%i] conversions. *)
Definition fmt_int (z : Z) : string := NilZero.string_of_int (Z.to_int z).

(** [%s] conversion of a possibly-NULL pointer (glibc prints "(null)"). *)
Definition fmt_str (s : option string) : string :=
  match s with Some x => x | None => "(null)" end.

Definition digit_val (c : Ascii.ascii) : option Z :=
  match Ascii.is_nat c with Some d => Some (Z.of_nat d) | None => None end.

Fixpoint atol_digits (s : string) (acc : Z) : Z :=
  match s with
  | String c r =>
      match digit_val c with
      | Some d => atol_digits r (10 * acc + d)
      | None => acc
      end
  | EmptyString => acc
  end.

Fixpoint skip_space (s : string) : string :=
  match s with
  | String c r => if Ascii.is_space c then skip_space r else s
  | EmptyString => s
  end.

(** [atol]: leading white space, an optional sign, decimal digits. *)
Definition atol (s : string) : Z :=
  match skip_space s with
  | String "-"%char r => - atol_digits r 0
  | String "+"%char r => atol_digits r 0
  | t => atol_digits t 0
  end.

(** First character of a C string ([s[0]], NUL for the empty string). *)
Definition head_char (s : string) : Ascii.ascii :=
  match s with String c _ => c | EmptyString => "000"%char end.

(** Concatenation of a list of strings, in order. *)
Fixpoint cat (l : list string) : string :=
  match l with
  | [] => ""
  | s :: r => s +:+ cat r
  end.

(** [needle] occurs in [hay]. *)
Definition occurs (needle hay : string) : Prop :=
  exists pre post, hay = pre +:+ needle +:+ post.

End CStr.

Import CStr.


(** ** udev dispatch: the handlers of config.h and [udevStatus] *)

Module Udev.

(** What the program reads from a [struct udev_device].  The subsystem
    may be NULL ([udevStatus] tests it); the action and the device name
    are passed to [strcoll] and [snprintf] untested and are taken to be
    present; [sysattrs] lists the sysfs attributes that exist.
    [strcoll(a, b)==0] is string equality. *)
Record udev_device := {
  subsystem : option string;
  action : string;
  sysname : string;
  sysattrs : list (string * string)
}.

Fixpoint udev_device_get_sysattr_value (attrs : list (string * string))
    (name : string) : option string :=
  match attrs with
  | [] => None
  | (k, v) :: r =>
      if String.eqb k name then Some v else udev_device_get_sysattr_value r name
  end.

(** Result of a handler [int func(dev, displayInfo)]: the returned
    [int] and what it stored in [displayInfo], if it stored anything.
    [None] is undefined behaviour of the C code. *)
Definition handler_result : Type := option (Z * option string).
Definition handler : Type := udev_device -> handler_result.

Definition backlightStatus : handler := fun dev =>
  match udev_device_get_sysattr_value (sysattrs dev) "actual_brightness",
        udev_device_get_sysattr_value (sysattrs dev) "max_brightness" with
  | Some a, Some m =>
      if atol m =? 0 then None
      else
        let value := Z.quot (100 * atol a) (atol m) in
        Some (0, Some (snprintf MX_ELEMENT_CHARS
                         ("LCD: " +:+ fmt_int value +:+ "%" +:+ si_separator)))
  | _, _ => None
  end.

Definition is_zero_char (s : string) : bool :=
  if Ascii.ascii_dec (head_char s) "0"%char then true else false.

Definition rfKillStatus : handler := fun dev =>
  let index := udev_device_get_sysattr_value (sysattrs dev) "index" in
  let type := udev_device_get_sysattr_value (sysattrs dev) "type" in
  let soft := udev_device_get_sysattr_value (sysattrs dev) "soft" in
  let hard := udev_device_get_sysattr_value (sysattrs dev) "hard" in
  let rfStatus : option Z :=
    match soft, hard with
    | None, None => Some (-1)
    | None, Some _ => None
    | Some s, h =>
        if is_zero_char s then
          match h with
          | Some h' => Some (if is_zero_char h' then 1 else 0)
          | None => None
          end
        else Some 0
    end in
  match rfStatus with
  | None => None
  | Some r =>
      if r =? -1 then Some (-1, None)
      else Some (0, Some (snprintf MX_ELEMENT_CHARS
                            (fmt_str type +:+ " [rfkill index:" +:+ fmt_str index
                             +:+ "]: " +:+ (if r =? 0 then "Off" else "On")
                             +:+ si_separator)))
  end.

Definition powerStatus : handler := fun dev =>
  let udevSubsystem := subsystem dev in
  if String.eqb BATTERY_NAME (sysname dev) then Some (0, Some "")
  else if String.eqb ADAPTOR_NAME (sysname dev) then
    match udev_device_get_sysattr_value (sysattrs dev) "online" with
    | None => None
    | Some online =>
        Some (0, Some (snprintf MX_ELEMENT_CHARS
                         (fmt_str udevSubsystem +:+ ": " +:+ sysname dev +:+ ": "
                          +:+ (if is_zero_char online then "Unplugged" else "Plugged")
                          +:+ si_separator)))
    end
  else
    Some (0, Some (snprintf MX_ELEMENT_CHARS
                     (fmt_str udevSubsystem +:+ ": " +:+ sysname dev +:+ ": "
                      +:+ action dev +:+ si_separator))).

Definition udevActions : list (string * handler) :=
  [ ("backlight", backlightStatus);
    ("rfkill", rfKillStatus);
    ("power_supply", powerStatus) ].

(** A store into [udevDisplayInfo[i]]. *)
Definition slot_write : Type := nat * string.

Definition apply_writes (slots : list string) (ws : list slot_write) : list string :=
  foldl (fun sl w => <[fst w := snd w]> sl) slots ws.

(** The dispatch loop of [udevStatus] from index [i] on: every table
    entry whose subsystem compares equal has its handler called on
    slot [i]; [ret] keeps the last handler's return value. *)
Fixpoint dispatch (tbl : list (string * handler)) (i : nat) (dev : udev_device)
    (udevSubsystem : string) (ret : Z) (ws : list slot_write)
    : option (Z * list slot_write) :=
  match tbl with
  | [] => Some (ret, ws)
  | (subSystem, func) :: rest =>
      if String.eqb subSystem udevSubsystem then
        match func dev with
        | None => None
        | Some (r, Some s) => dispatch rest (S i) dev udevSubsystem r (ws ++ [(i, s)])
        | Some (r, None) => dispatch rest (S i) dev udevSubsystem r ws
        end
      else dispatch rest (S i) dev udevSubsystem ret ws
  end.

(** The stores [udevStatus] makes into the slot array, in order. *)
Definition udevStatus_writes (dev : udev_device) (udevSubsystem : string)
    : option (list slot_write) :=
  match
    (if String.eqb "change" (action dev)
     then dispatch (take (Z.to_nat MX_NUMBER_ELEMENTS) udevActions) 0 dev
                   udevSubsystem (-1) []
     else Some (-1, []))
  with
  | None => None
  | Some (ret, ws) =>
      if ret =? -1 then
        Some (ws ++ [(Z.to_nat (MX_NUMBER_ELEMENTS - 1),
                      snprintf MX_ELEMENT_CHARS
                        (udevSubsystem +:+ ": " +:+ sysname dev +:+ ": "
                         +:+ action dev +:+ " "))])
      else Some ws
  end.

(** The composing loop of [udevStatus]:
    [for (i=0; i<MX_NUMBER_ELEMENTS && j>MX_ELEMENT_CHARS; i++)]. *)
Fixpoint compose_loop (slots : list string) (j : Z) (sBuf : string) : string :=
  match slots with
  | [] => sBuf
  | s :: rest =>
      if MX_ELEMENT_CHARS <? j
      then compose_loop rest (j - strlen s) (strncat sBuf s MX_ELEMENT_CHARS)
      else sBuf
  end.

Definition compose (sBuf : string) (udevDisplayInfo : list string) : string :=
  compose_loop (take (Z.to_nat MX_NUMBER_ELEMENTS) udevDisplayInfo)
               MX_STATUS_CHARS sBuf.

(** [udevStatus]: the returned [int], the slot array and [sBuf] after
    the call. *)
Definition udevStatus (sBuf : string) (udevDisplayInfo : list string)
    (dev : udev_device) : option (Z * list string * string) :=
  match subsystem dev with
  | None => Some (-1, udevDisplayInfo, sBuf)
  | Some udevSubsystem =>
      match udevStatus_writes dev udevSubsystem with
      | None => None
      | Some ws =>
          let slots := apply_writes udevDisplayInfo ws in
          Some (0, slots, compose sBuf slots)
      end
  end.

End Udev.

Import Udev.

(** ** The nl80211 station query *)

Module Netlink.

(** The fields the program reads and writes.  [ifindex] is an
    [unsigned int], so its values are not negative. *)
Record si_nlData := { id : Z; wlanStatsResult : Z }.
Record si_wStats := { ifindex : Z; signal : Z }.

(** Return codes of libnl callbacks. *)
Inductive nl_cb_action := NL_OK | NL_SKIP | NL_STOP.

(** The nested attribute [NL80211_ATTR_STA_INFO] of a station message:
    either [nla_parse_nested] rejects it, or it parses and may carry
    the one-byte [NL80211_STA_INFO_SIGNAL]. *)
Inductive sta_info :=
| StaMalformed
| StaAttrs (sta_info_signal : option Z).

(** A netlink message as libnl classifies it: a valid (data) message
    with its optional station info, the end of a dump ([NLMSG_DONE]),
    or an acknowledgement. *)
Inductive nl_msg :=
| MsgValid (attr_sta_info : option sta_info)
| MsgDone
| MsgAck.

#[global] Instance sta_info_eq_dec : EqDecision sta_info.
Proof. solve_decision. Defined.

#[global] Instance nl_msg_eq_dec : EqDecision nl_msg.
Proof. solve_decision. Defined.

(** [(int8_t)nla_get_u8(attr)]. *)
Definition int8_of_u8 (u : Z) : Z :=
  let b := u mod 256 in if b <? 128 then b else b - 256.

Definition finish_handler (ret : Z) : Z * nl_cb_action := (0, NL_SKIP).

Definition ack_handler : nl_cb_action := NL_STOP.

Definition getWifiStats_nl_cb (tb_sta_info : option sta_info) (arg : si_wStats)
    : si_wStats * nl_cb_action :=
  match tb_sta_info with
  | None => (arg, NL_SKIP)
  | Some StaMalformed => (arg, NL_SKIP)
  | Some (StaAttrs (Some u)) =>
      ({| ifindex := ifindex arg; signal := int8_of_u8 u |}, NL_SKIP)
  | Some (StaAttrs None) => ({| ifindex := ifindex arg; signal := 0 |}, NL_SKIP)
  end.

(** One call of libnl's [nl_recvmsgs] with the callback set installed by
    [init_nl80211], on the messages [batch] that the call receives:
    each message goes to the callback of its kind; after [NL_OK] or
    [NL_SKIP] the next message is dispatched, [NL_STOP] ends the call. *)
Fixpoint nl_recvmsgs (batch : list nl_msg) (flag : Z) (w : si_wStats)
    : Z * si_wStats :=
  match batch with
  | [] => (flag, w)
  | m :: rest =>
      let '(flag', w', act) :=
        match m with
        | MsgValid sta => let (w1, a) := getWifiStats_nl_cb sta w in (flag, w1, a)
        | MsgDone => let (f1, a) := finish_handler flag in (f1, w, a)
        | MsgAck => (flag, w, ack_handler)
        end in
      match act with
      | NL_STOP => (flag', w')
      | _ => nl_recvmsgs rest flag' w'
      end
  end.

(** [while (nlData->wlanStatsResult > 0) nl_recvmsgs(...)] over the
    successive receive calls [batches].  The call blocks when nothing
    more arrives: [None]. *)
Fixpoint recv_loop (batches : list (list nl_msg)) (flag : Z) (w : si_wStats)
    : option (Z * si_wStats) :=
  match batches with
  | [] => if 0 <? flag then None else Some (flag, w)
  | b :: rest =>
      if 0 <? flag then
        let (flag', w') := nl_recvmsgs b flag w in recv_loop rest flag' w'
      else Some (flag, w)
  end.

(** [getWifiStatus]: [alloc_ok] says whether [nlmsg_alloc] succeeded. *)
Definition getWifiStatus (alloc_ok : bool) (batches : list (list nl_msg))
    (nlData : si_nlData) (wStats : si_wStats)
    : option (Z * si_nlData * si_wStats) :=
  if ifindex wStats <? 0 then Some (-1, nlData, wStats)
  else if negb alloc_ok then Some (-2, nlData, wStats)
  else
    match recv_loop batches 1 wStats with
    | None => None
    | Some (flag, w) => Some (0, {| id := id nlData; wlanStatsResult := flag |}, w)
    end.

(** What [init_nl80211] gets from libnl. *)
Record nl_init_env := {
  socket_alloc_ok : bool;
  genl_connect_ok : bool;
  genl_ctrl_resolve : Z;
  cb_alloc_ok : bool
}.

(** [init_nl80211]: the returned [int] and [nlData->id]. *)
Definition init_nl80211 (e : nl_init_env) : Z * Z :=
  if negb (socket_alloc_ok e) then (-1, -1)
  else if negb (genl_connect_ok e) then (-1, -1)
  else
    let nl_id := genl_ctrl_resolve e in
    if nl_id <? 0 then (-1, nl_id)
    else if negb (cb_alloc_ok e) then (-1, nl_id)
    else (nl_id, nl_id).

End Netlink.

Import Netlink.

(** ** The periodic status line *)

Module Status.

Definition IFF_LOOPBACK : Z := 8.
Definition IFF_POINTOPOINT : Z := 16.
Definition IFF_RUNNING : Z := 64.
Definition AF_INET : Z := 2.
Definition AF_INET6 : Z := 10.

(** One entry of the [getifaddrs] list; [ifa_family] is [None] when
    [ifa_addr] is NULL. *)
Record ifaddrs := {
  ifa_name : string;
  ifa_flags : Z;
  ifa_family : option Z
}.

(** What [getEthernetStatus] gets from the kernel for one interface:
    [ioctl1] and [ioctl2] are [None] when the ioctl returns -1,
    otherwise [link_mode_masks_nwords] after the first call and
    [speed] (as printed by [%i]) after the second. *)
Record eth_env := {
  socket_ok : bool;
  ioctl1 : option Z;
  ioctl2 : option Z
}.

Record net_env := {
  getifaddrs : option (list ifaddrs);
  if_nametoindex : string -> Z;
  ethtool : string -> eth_env;
  nlmsg_alloc_ok : string -> bool;
  nl_batches : string -> list (list nl_msg);
  displayStatus_init : string
}.

Record status_env := {
  clock : option (option string);
  sys_capacity : option Z;
  sys_power_now : option Z;
  sys_temp : option Z;
  net : net_env
}.

Definition char_str (c : Ascii.ascii) : string := String c "".

(** [getEthernetStatus]: the content of [displayStatus] after the call. *)
Definition getEthernetStatus (e : eth_env) (idx : Z) (name : string)
    (displayStatus : string) : string :=
  if negb (socket_ok e) then ""
  else
    match ioctl1 e with
    | Some nwords =>
        if nwords <? 0 then
          match ioctl2 e with
          | Some speed =>
              snprintf 16 (char_str (head_char name) +:+ fmt_int idx +:+ ":"
                           +:+ fmt_int speed +:+ "M ")
          | None => displayStatus
          end
        else displayStatus
    | None =>
        snprintf 16 (char_str (head_char name) +:+ "(" +:+ fmt_int idx +:+ "):err")
    end.

Definition flag_set (flags mask : Z) : bool := negb (Z.land flags mask =? 0).

Definition first_is (name : string) (c : Ascii.ascii) : bool :=
  if Ascii.ascii_dec (head_char name) c then true else false.

(** The loop of [getNetwork] over the interface list.  [i] is the
    room left in [displayText], [names] the interfaces already shown. *)
Fixpoint getNetwork_loop (e : net_env) (l : list ifaddrs) (i : Z)
    (names : list string) (displayStatus displayText : string)
    (nlData : si_nlData) (wStats : si_wStats)
    : option (string * si_nlData * si_wStats) :=
  match l with
  | [] => Some (displayText, nlData, wStats)
  | ifa :: rest =>
      if negb (0 <? i) then Some (displayText, nlData, wStats)
      else
        let skip :=
          getNetwork_loop e rest i names displayStatus displayText nlData wStats in
        match ifa_family ifa with
        | None => skip
        | Some fam =>
            if flag_set (ifa_flags ifa) IFF_LOOPBACK
               || flag_set (ifa_flags ifa) IFF_POINTOPOINT then skip
            else if negb ((fam =? AF_INET) || (fam =? AF_INET6)) then skip
            else if negb (flag_set (ifa_flags ifa) IFF_RUNNING) then skip
            else if existsb (String.eqb (ifa_name ifa)) names then skip
            else
              let name := ifa_name ifa in
              let names' :=
                if (length names <? 15)%nat then names ++ [name] else names in
              let ds1 :=
                if first_is name "e" || first_is name "b"
                then getEthernetStatus (ethtool e name) (if_nametoindex e name)
                                       name displayStatus
                else displayStatus in
              let wifi :=
                if first_is name "w" && (0 <=? id nlData) then
                  let w0 := {| ifindex := if_nametoindex e name;
                               signal := signal wStats |} in
                  match getWifiStatus (nlmsg_alloc_ok e name) (nl_batches e name)
                                      nlData w0 with
                  | None => None
                  | Some (_, nl1, w1) =>
                      Some (snprintf 16 ("w" +:+ fmt_int (ifindex w1) +:+ ":"
                                         +:+ fmt_int (signal w1) +:+ "dBm "),
                            nl1, w1)
                  end
                else Some (ds1, nlData, wStats) in
              match wifi with
              | None => None
              | Some (ds2, nl1, w1) =>
                  let displayText' := strncat displayText ds2 i in
                  let i' := i - strlen ds2 in
                  if i' <? 0 then Some (displayText', nl1, w1)
                  else getNetwork_loop e rest i' names' ds2 displayText' nl1 w1
              end
        end
  end.

Definition getNetwork (e : net_env) (displayText : string)
    (nlData : si_nlData) (wStats : si_wStats)
    : option (string * si_nlData * si_wStats) :=
  match getifaddrs e with
  | None => Some (displayText, nlData, wStats)
  | Some l =>
      getNetwork_loop e l (MX_ELEMENT_CHARS - 1) [] (displayStatus_init e)
                      displayText nlData wStats
  end.

(** [getTime]: [None] when [localtime] fails, [Some None] when
    [strftime] returns 0. *)
Definition getTime (c : option (option string)) : string :=
  str_take (Z.to_nat (MX_ELEMENT_CHARS - 1))
    match c with
    | Some (Some s) => s
    | Some None => snprintf MX_ELEMENT_CHARS "[clock format error]"
    | None => snprintf MX_ELEMENT_CHARS "[clock error]"
    end.

(** [getSysInfo]: the number read from the file, -1 when the file
    cannot be opened or holds no number. *)
Definition getSysInfo (file : option Z) : Z :=
  match file with Some v => v | None => -1 end.

Definition getTmpInfo (file : option Z) : Z :=
  let tmp := getSysInfo file in
  if negb (tmp =? -1) then Z.quot tmp 1000 else -1.

(** The four optional elements and the line of [getStatusInfo]. *)
Definition tmp_element (sysfsThermalPath : option string) (file : option Z) : string :=
  match sysfsThermalPath with
  | Some _ =>
      snprintf MX_ELEMENT_CHARS ("tmp:" +:+ fmt_int (getTmpInfo file) +:+ "C"
                                 +:+ si_separator)
  | None => ""
  end.

Definition pwr_element (powerNow : Z) : string :=
  if 0 <? powerNow
  then snprintf MX_ELEMENT_CHARS ("pwr:" +:+ fmt_int powerNow +:+ "W" +:+ si_separator)
  else "".

Definition bat_element (batCapacityNow : Z) : string :=
  if 15 <? batCapacityNow
  then snprintf MX_ELEMENT_CHARS
         ("bat:" +:+ fmt_int batCapacityNow +:+ "%" +:+ si_separator)
  else if negb (batCapacityNow =? -1)
  then snprintf MX_ELEMENT_CHARS
         ("[!]bat:" +:+ fmt_int batCapacityNow +:+ "%" +:+ si_separator)
  else "".

Definition status_line (net tmp pwr bat tml : string) : string :=
  snprintf MX_STATUS_CHARS (net +:+ tmp +:+ pwr +:+ bat +:+ tml).

Definition getStatusInfo (e : status_env) (sysfsThermalPath : option string)
    (nlData : si_nlData) (wStats : si_wStats)
    : option (string * si_nlData * si_wStats) :=
  let tml := getTime (clock e) in
  let batCapacityNow := getSysInfo (sys_capacity e) in
  let powerNow := Z.quot (getSysInfo (sys_power_now e)) 1000000 in
  match (if 0 <=? id nlData then getNetwork (net e) "" nlData wStats
         else Some ("", nlData, wStats)) with
  | None => None
  | Some (net, nl1, w1) =>
      let tmp := tmp_element sysfsThermalPath (sys_temp e) in
      let pwr := pwr_element powerNow in
      let bat := bat_element batCapacityNow in
      Some (status_line net tmp pwr bat tml, nl1, w1)
  end.

End Status.

Import Status.

(** ** The mixer callback *)

Module Mixer.

(** What alsa reports for the element a callback is invoked on.  A
    getter that fails leaves its output variable untouched: [None]. *)
Record mixer_elem := {
  elem_name : string;
  mask : Z;
  has_playback_switch : bool;
  playback_switch_left : option Z;
  playback_switch_joined : bool;
  playback_switch_right : option Z;
  has_playback_volume : bool;
  playback_volume_range : option (Z * Z);
  playback_volume_left : option Z;
  playback_volume_joined : bool;
  playback_volume_right : option Z
}.

Definition or_keep (v : option Z) (old : Z) : Z :=
  match v with Some x => x | None => old end.

(** [mixer_elem_cb]: the content of the global [volumeLevel] after the
    call.  [! mask & SND_CTL_EVENT_MASK_VALUE] is [(!mask) & 1]. *)
Definition mixer_elem_cb (el : mixer_elem) (volumeLevel : string) : option string :=
  if mask el =? 0 then Some volumeLevel
  else
    let activeL := if has_playback_switch el
                   then or_keep (playback_switch_left el) (-1) else -1 in
    let activeR := if has_playback_switch el
                   then (if playback_switch_joined el then activeL
                         else or_keep (playback_switch_right el) (-1))
                   else -1 in
    let '(min, max) := if has_playback_volume el
                       then match playback_volume_range el with
                            | Some r => r | None => (0, 1) end
                       else (0, 1) in
    let volL := if has_playback_volume el
                then or_keep (playback_volume_left el) (-1) else -1 in
    let volR := if has_playback_volume el
                then (if playback_volume_joined el then volL
                      else or_keep (playback_volume_right el) (-1))
                else -1 in
    let volR := volR - min in
    let volL := volL - min in
    let max := max - min in
    let masterR := if 0 <? max then Z.quot (100 * volR) max else -1 in
    let masterL := if 0 <? max then Z.quot (100 * volL) max else -1 in
    let first := elem_name el +:+ ": " +:+ (if activeL =? 1 then "" else "!")
                 +:+ fmt_int masterL +:+ "%" in
    let r := strlen first in
    if negb (masterL =? masterR) || negb (activeL =? activeR) then
      if r <=? MX_STATUS_CHARS - 1 then
        Some (first +:+ snprintf (MX_STATUS_CHARS - r - 1)
                          (":" +:+ (if activeR =? 1 then "" else "!")
                           +:+ fmt_int masterR +:+ "%"))
      else None
    else Some (snprintf MX_STATUS_CHARS first).

(** The callbacks one [snd_mixer_handle_events] call makes, in order. *)
Fixpoint run_callbacks (els : list mixer_elem) (volumeLevel : string) : option string :=
  match els with
  | [] => Some volumeLevel
  | el :: rest =>
      match mixer_elem_cb el volumeLevel with
      | None => None
      | Some v => run_callbacks rest v
      end
  end.

End Mixer.

Import Mixer.

(** ** The poll loop of [main] *)

Module Reactor.

Definition POLLIN : Z := 1.
Definition POLLERR : Z := 8.
Definition POLLNVAL : Z := 32.

Inductive output := none | xorg | text | dwlb.

(** Fixed before the loop starts.  [sysfsThermalPath] is the array of
    [main], filled in only when [getThermalPath] found a zone. *)
Record Setup := {
  outputFunction : output;
  sysfsThermalPath : string
}.

(** The variables of [main] that live across iterations. *)
Record State := {
  timeout : Z;
  udevDisplayInfo : list string;
  nlData : si_nlData;
  wStats : si_wStats
}.

(** What one iteration reads from its environment. *)
Record Env := {
  poll_ret : Z;
  revents0 : Z;
  revents1 : Z;
  revents2 : Z;
  udev_monitor_receive_device : option udev_device;
  signal_read_ok : bool;
  snd_mixer_handle_events : Z;
  mixer_callbacks : list mixer_elem;
  status : status_env;
  dwlbSend : Z
}.

(** Messages on the error stream. *)
Inductive diag :=
| PollError
| UdevReceiveFailed
| SignalReadError
| MixerEventsFailed (ret : Z).

(** A line handed to [sbOut], by call site. *)
Inductive emission :=
| EventLine (line : string)
| StatusLine (line : string).

Inductive outcome :=
| Continue (st : State)
| Break
| Undefined
| Blocked.

Record iteration := {
  poll_timeout : Z;
  emitted : list emission;
  diags : list diag;
  next : outcome
}.

(** [sbOut]: the returned [int]. *)
Definition sbOut (o : output) (dwlbSend_ret : Z) : Z :=
  match o with
  | xorg => 0
  | text => 0
  | dwlb => dwlbSend_ret
  | none => -1
  end.

Definition has (revents mask : Z) : bool := negb (Z.land revents mask =? 0).

Definition poll_error (e : Env) : bool :=
  has (revents0 e) (Z.lor POLLERR POLLNVAL)
  || has (revents1 e) (Z.lor POLLERR POLLNVAL)
  || has (revents2 e) (Z.lor POLLERR POLLNVAL).

(** [for (i=0; i<MX_NUMBER_ELEMENTS; i++) udevDisplayInfo[i][0]='\0';] *)
Definition clear_slots (slots : list string) : list string :=
  foldl (fun sl i => <[i := ""]> sl) slots (seq 0 (Z.to_nat MX_NUMBER_ELEMENTS)).

(** The body of [if (ret > 0) { ... }] up to the test of [sBuf]. *)
Inductive event_result :=
| EvUndefined
| EvBreak (ds : list diag)
| EvLine (slots : list string) (sBuf : string) (ds : list diag).

Definition handle_events (st : State) (e : Env) : event_result :=
  if poll_error e then EvBreak [PollError]
  else
    let udev : option (list string * string * list diag) :=
      if has (revents0 e) POLLIN then
        match udev_monitor_receive_device e with
        | Some dev =>
            match udevStatus "" (udevDisplayInfo st) dev with
            | Some (_, slots, sBuf) => Some (slots, sBuf, [])
            | None => None
            end
        | None => Some (udevDisplayInfo st, "", [UdevReceiveFailed])
        end
      else Some (udevDisplayInfo st, "", []) in
    match udev with
    | None => EvUndefined
    | Some (slots, sBuf, ds) =>
        if has (revents1 e) POLLIN then
          EvBreak (ds ++ if signal_read_ok e then [] else [SignalReadError])
        else if has (revents2 e) POLLIN then
          let ret := snd_mixer_handle_events e in
          if ret <? 0 then EvLine slots sBuf (ds ++ [MixerEventsFailed ret])
          else
            match run_callbacks (mixer_callbacks e) "" with
            | Some volumeLevel => EvLine slots (snprintf MX_STATUS_CHARS volumeLevel) ds
            | None => EvUndefined
            end
        else EvLine slots sBuf ds
    end.

(** The refresh at the end of the loop body. *)
Definition refresh (cfg : Setup) (st : State) (e : Env) (slots : list string)
    (ds : list diag) : iteration :=
  let slots' := clear_slots slots in
  match getStatusInfo (status e) (Some (sysfsThermalPath cfg)) (nlData st) (wStats st) with
  | None =>
      {| poll_timeout := timeout st; emitted := []; diags := ds; next := Blocked |}
  | Some (sBuf, nl, w) =>
      {| poll_timeout := timeout st;
         emitted := [StatusLine sBuf];
         diags := ds;
         next := if sbOut (outputFunction cfg) (dwlbSend e) =? -1 then Break
                 else Continue {| timeout := STATUS_TIMEOUT;
                                  udevDisplayInfo := slots';
                                  nlData := nl;
                                  wStats := w |} |}
  end.

(** One pass through the body of [while(!exit_request)]. *)
Definition loop_body (cfg : Setup) (st : State) (e : Env) : iteration :=
  let ret := poll_ret e in
  if ret <? 0 then
    {| poll_timeout := timeout st; emitted := []; diags := []; next := Break |}
  else if 0 <? ret then
    match handle_events st e with
    | EvUndefined =>
        {| poll_timeout := timeout st; emitted := []; diags := []; next := Undefined |}
    | EvBreak ds =>
        {| poll_timeout := timeout st; emitted := []; diags := ds; next := Break |}
    | EvLine slots sBuf ds =>
        if negb (String.eqb sBuf "") then
          {| poll_timeout := timeout st;
             emitted := [EventLine sBuf];
             diags := ds;
             next := if sbOut (outputFunction cfg) (dwlbSend e) =? -1 then Break
                     else Continue {| timeout := NOTIFY_TIMEOUT;
                                      udevDisplayInfo := slots;
                                      nlData := nlData st;
                                      wStats := wStats st |} |}
        else refresh cfg st e slots ds
    end
  else refresh cfg st e (udevDisplayInfo st) [].

(** The iterations of the loop on successive environments. *)
Fixpoint run (cfg : Setup) (st : State) (envs : list Env) : list iteration :=
  match envs with
  | [] => []
  | e :: rest =>
      let it := loop_body cfg st e in
      it :: match next it with
            | Continue st' => run cfg st' rest
            | _ => []
            end
  end.

(** [main] from the declaration of [timeout] on: the arrays and
    [wStats] start with whatever the stack holds. *)
Definition initial_state (nl_init : nl_init_env) (stack_slots : list string)
    (stack_flag : Z) (stack_wStats : si_wStats) : State :=
  {| timeout := 1000;
     udevDisplayInfo := stack_slots;
     nlData := {| id := snd (init_nl80211 nl_init); wlanStatsResult := stack_flag |};
     wStats := stack_wStats |}.

Definition main_loop (cfg : Setup) (exit_request : bool) (st : State)
    (envs : list Env) : list iteration :=
  if exit_request then [] else run cfg st envs.

End Reactor.

Import Reactor.

(** ** Start-up: the thermal zone *)

Module Thermal.

Definition MX_PATH_LEN : Z := 256.
Definition newline : string := String "010"%char "".
Definition THERMAL_ZONE : string := "/sys/class/hwmon/hwmon".
Definition THERMAL_NAME : string :=
  "cpu_thermal" +:+ newline +:+ "acpitz" +:+ newline +:+ "k10temp" +:+ newline
  +:+ "amdgpu" +:+ newline.
Definition TEMP_INPUT : string := "temp1_input".

(** [fgets(buf, size, f)] on a file that holds [content]: characters up
    to and including the first newline, at most [size-1] of them.  At end
    of file nothing is stored and [buf] keeps the empty string
    [getThermalPath] put there. *)
Fixpoint fgets_line (n : nat) (content : string) : string :=
  match n, content with
  | S n', String c r =>
      if Ascii.eqb c "010"%char then String c "" else String c (fgets_line n' r)
  | _, _ => ""
  end.

Definition fgets (size : Z) (content : string) : string :=
  fgets_line (Z.to_nat (size - 1)) content.

(** [strstr(haystack, needle) != NULL]. *)
Fixpoint strstr (haystack needle : string) : bool :=
  String.prefix needle haystack
  || match haystack with
     | String _ r => strstr r needle
     | EmptyString => false
     end.

Definition zone_name_path (i : Z) : string := THERMAL_ZONE +:+ fmt_int i +:+ "/name".

(** The loop of [getThermalPath] from zone [i] on, [fuel] zones left;
    [fopen] gives the content of a readable file. *)
Fixpoint getThermalPath_loop (fuel : nat) (i : Z) (fopen : string -> option string) : Z :=
  match fuel with
  | O => -1
  | S fuel' =>
      if strlen (zone_name_path i) <? MX_PATH_LEN then
        match fopen (zone_name_path i) with
        | None => -1
        | Some content =>
            let thermalType := fgets 15 content in
            if strstr THERMAL_NAME thermalType then i
            else getThermalPath_loop fuel' (i + 1) fopen
        end
      else -1
  end.

Definition getThermalPath (fopen : string -> option string) : Z :=
  getThermalPath_loop 9 0 fopen.

End Thermal.

Import Thermal.

(** ** Start-up: the dwlb socket and the choice of the sink *)

(** The names of this module are used qualified: [dwlbSend] is also the
    field of [Env] that holds the call's result in the loop. *)
Module Dwlb.

(** The system calls of [dwlbSend], in order. *)
Inductive sys_call :=
| SysSocket
| SysConnect
| SysSend (msg : string)
| SysClose.

(** What the kernel answers to one [dwlbSend]: the results of [socket],
    [connect] and [send]. *)
Record dwlb_env := {
  socket_ret : Z;
  connect_ret : Z;
  send_ret : Z
}.

(** [dwlbSend]: the returned [int] and the system calls made. *)
Definition dwlbSend (e : dwlb_env) (output cmd : string) (data : option string)
    : Z * list sys_call :=
  let sockbuf :=
    match data with
    | Some d => snprintf 4096 (output +:+ " " +:+ cmd +:+ " " +:+ d)
    | None => snprintf 4096 (output +:+ " " +:+ cmd)
    end in
  if socket_ret e =? -1 then (-1, [SysSocket])
  else if connect_ret e =? -1 then (-1, [SysSocket; SysConnect])
  else (send_ret e, [SysSocket; SysConnect; SysSend sockbuf; SysClose]).

(** The probing loop of [dwlbSocketInit]:
    [for(i=0; j==-1 && i<10; i++) { sleep(1); j=dwlbSend(...); }] with [j]
    equal to -1 on entry; [attempt i] is the kernel's answer to the
    [i]-th send.  Returns [j] and [i] after the loop. *)
Fixpoint dwlb_probe (fuel : nat) (i : nat) (attempt : nat -> dwlb_env) : Z * nat :=
  match fuel with
  | O => (-1, i)
  | S fuel' =>
      let j := (dwlbSend (attempt i) "all" "status" (Some "dwl")).1 in
      if j =? -1 then dwlb_probe fuel' (S i) attempt else (j, S i)
  end.

(** [dwlbSocketInit]: the returned [int], [sun_path] when it was set,
    and the number of sends made. *)
Definition dwlbSocketInit (xdgRunTimeDir : option string) (attempt : nat -> dwlb_env)
    (dwlb_ref : Z) : Z * option string * nat :=
  match xdgRunTimeDir with
  | None => (-1, None, 0%nat)
  | Some dir =>
      let sun_path := snprintf 108 (dir +:+ "/dwlb/dwlb-" +:+ fmt_int dwlb_ref) in
      let '(j, i) := dwlb_probe 10 0 attempt in
      if j =? -1 then (-1, Some sun_path, i) else (0, Some sun_path, i)
  end.

(** [argv[1][1]]; only read when [argv[1][0]] is not NUL. *)
Definition second_char (s : string) : Ascii.ascii :=
  match s with String _ r => head_char r | EmptyString => "000"%char end.

(** The choice of the sink at the start of [main]: [argv1] is [argv[1]]
    when [argc>=2], [display] whether [XOpenDisplay] succeeded.  [None]
    is [return 1]. *)
Definition select_output (argv1 : option string) (display : bool)
    (xdgRunTimeDir : option string) (attempt : nat -> dwlb_env) : option output :=
  match argv1 with
  | Some arg =>
      if Ascii.eqb (head_char arg) "-"%char then
        if Ascii.eqb (second_char arg) "t"%char then Some text else None
      else
        let dwlbSocketId := atol arg in
        if dwlbSocketId <? 0 then None
        else if (dwlbSocketInit xdgRunTimeDir attempt dwlbSocketId).1.1 =? -1 then None
        else Some dwlb
  | None => if display then Some xorg else Some text
  end.

End Dwlb.

(** ** Vocabulary of the statements *)

(** A fragment that fits an element buffer [char x[MX_ELEMENT_CHARS]]. *)
Definition short (s : string) : Prop := strlen s < MX_ELEMENT_CHARS.

(** The timeouts passed to [poll], in order. *)
Definition poll_timeouts (cfg : Setup) (st : State) (envs : list Env) : list Z :=
  map poll_timeout (run cfg st envs).

(** The value [getWifiStats_nl_cb] stores in [signal] for a message, if
    it stores one. *)
Definition recorded (m : nl_msg) : option Z :=
  match m with
  | MsgValid (Some (StaAttrs (Some u))) => Some (int8_of_u8 u)
  | MsgValid (Some (StaAttrs None)) => Some 0
  | _ => None
  end.

(** The messages of one receive call that reach a callback: all up to
    and including the first acknowledgement. *)
Fixpoint dispatched (batch : list nl_msg) : list nl_msg :=
  match batch with
  | [] => []
  | MsgAck :: _ => [MsgAck]
  | m :: rest => m :: dispatched rest
  end.

(** The last value stored for the messages [msgs], [old] if none was. *)
Definition last_recorded (old : Z) (msgs : list nl_msg) : Z :=
  default old (last (omap recorded msgs)).

(** A handler either stores a fragment and returns 0, or stores
    nothing and returns -1. *)
Definition handler_ok (f : handler) : Prop :=
  forall dev r w,
    f dev = Some (r, w) -> (r = 0 /\ exists s, w = Some s) \/ (r = -1 /\ w = None).

(** The same environment with the udev monitor, resp. the mixer, not
    readable. *)
Definition udev_not_ready (e : Env) : Env :=
  {| poll_ret := poll_ret e; revents0 := 0; revents1 := revents1 e;
     revents2 := revents2 e;
     udev_monitor_receive_device := udev_monitor_receive_device e;
     signal_read_ok := signal_read_ok e;
     snd_mixer_handle_events := snd_mixer_handle_events e;
     mixer_callbacks := mixer_callbacks e;
     status := status e;
     dwlbSend := dwlbSend e |}.

Definition mixer_not_ready (e : Env) : Env :=
  {| poll_ret := poll_ret e; revents0 := revents0 e; revents1 := revents1 e;
     revents2 := 0;
     udev_monitor_receive_device := udev_monitor_receive_device e;
     signal_read_ok := signal_read_ok e;
     snd_mixer_handle_events := snd_mixer_handle_events e;
     mixer_callbacks := mixer_callbacks e;
     status := status e;
     dwlbSend := dwlbSend e |}.

(** The same result with one more message on the error stream, written
    first, resp. last. *)
Definition diag_first (d : diag) (r : event_result) : event_result :=
  match r with
  | EvUndefined => EvUndefined
  | EvBreak ds => EvBreak (d :: ds)
  | EvLine slots sBuf ds => EvLine slots sBuf (d :: ds)
  end.

Definition diag_last (d : diag) (r : event_result) : event_result :=
  match r with
  | EvUndefined => EvUndefined
  | EvBreak ds => EvBreak (ds ++ [d])
  | EvLine slots sBuf ds => EvLine slots sBuf (ds ++ [d])
  end.

(** The line of [getStatusInfo] without any network element. *)
Definition status_line_no_net (cfg : Setup) (e : status_env) : string :=
  status_line ""
    (tmp_element (Some (sysfsThermalPath cfg)) (sys_temp e))
    (pwr_element (Z.quot (getSysInfo (sys_power_now e)) 1000000))
    (bat_element (getSysInfo (sys_capacity e)))
    (getTime (clock e)).

(** The slot array as [main] declares it: [MX_NUMBER_ELEMENTS] slots,
    each holding a string that fits [MX_ELEMENT_CHARS] bytes. *)
Definition slots_ok (slots : list string) : Prop :=
  Z.of_nat (length slots) = MX_NUMBER_ELEMENTS /\ Forall short slots.

(** The text of a line handed to [sbOut]. *)
Definition line_of (em : emission) : string :=
  match em with
  | EventLine line => line
  | StatusLine line => line
  end.

(** A handler stores only fragments that fit a slot. *)
Definition handler_short (f : handler) : Prop :=
  forall dev r s, f dev = Some (r, Some s) -> short s.

(** Zone [j] can be read and its type line occurs in [THERMAL_NAME],
    resp. can be read and its type line does not occur there. *)
Definition zone_matches (fopen : string -> option string) (j : Z) : Prop :=
  exists content,
    fopen (zone_name_path j) = Some content
    /\ strstr THERMAL_NAME (fgets 15 content) = true.

Definition zone_other (fopen : string -> option string) (j : Z) : Prop :=
  exists content,
    fopen (zone_name_path j) = Some content
    /\ strstr THERMAL_NAME (fgets 15 content) = false.

(** The [k]-th probe of [dwlbSocketInit] gets through to dwlb. *)
Definition probe_ok (attempt : nat -> Dwlb.dwlb_env) (k : nat) : Prop :=
  (Dwlb.dwlbSend (attempt k) "all" "status" (Some "dwl")).1 <> -1.

(** The range of a C [long] on the platforms the program runs on. *)
Definition LONG_MAX : Z := 9223372036854775807.
Definition LONG_MIN : Z := -9223372036854775808.

(** An entry of the interface list that [getNetwork] does not pass
    over: it has an IPv4 or IPv6 address, is running, and is neither a
    loopback nor a point-to-point interface. *)
Definition shown_entry (ifa : ifaddrs) : bool :=
  match ifa_family ifa with
  | None => false
  | Some fam =>
      negb (flag_set (ifa_flags ifa) IFF_LOOPBACK
            || flag_set (ifa_flags ifa) IFF_POINTOPOINT)
      && ((fam =? AF_INET) || (fam =? AF_INET6))
      && flag_set (ifa_flags ifa) IFF_RUNNING
  end.





(** The text [rfKillStatus] formats, with "On" or "Off" for [state]. *)
Definition rfkill_text (dev : udev_device) (state : string) : string :=
  fmt_str (udev_device_get_sysattr_value (sysattrs dev) "type")
  +:+ " [rfkill index:"
  +:+ fmt_str (udev_device_get_sysattr_value (sysattrs dev) "index")
  +:+ "]: " +:+ state +:+ " ".

(** ** Sample inputs *)

(** The slot array with every slot empty. *)
Definition empty_slots : list string := replicate (Z.to_nat MX_NUMBER_ELEMENTS) "".

Definition backlight_dev : udev_device :=
  {| subsystem := Some "backlight"; action := "change"; sysname := "intel_backlight";
     sysattrs := [("actual_brightness", "50"); ("max_brightness", "100")] |}.

Definition no_interfaces : net_env :=
  {| getifaddrs := Some [];
     if_nametoindex := fun _ => 0;
     ethtool := fun _ => {| socket_ok := true; ioctl1 := None; ioctl2 := None |};
     nlmsg_alloc_ok := fun _ => true;
     nl_batches := fun _ => [];
     displayStatus_init := "" |}.

Definition sample_status : status_env :=
  {| clock := Some (Some "30-10-2026 12:00");
     sys_capacity := Some 50;
     sys_power_now := Some 12000000;
     sys_temp := Some 45000;
     net := no_interfaces |}.

(** [poll] timed out. *)
Definition env_timeout : Env :=
  {| poll_ret := 0; revents0 := 0; revents1 := 0; revents2 := 0;
     udev_monitor_receive_device := None;
     signal_read_ok := true;
     snd_mixer_handle_events := 0;
     mixer_callbacks := [];
     status := sample_status;
     dwlbSend := 0 |}.

(** Only the udev monitor is readable; [dev] is what it delivers. *)
Definition env_udev (dev : option udev_device) : Env :=
  {| poll_ret := 1; revents0 := POLLIN; revents1 := 0; revents2 := 0;
     udev_monitor_receive_device := dev;
     signal_read_ok := true;
     snd_mixer_handle_events := 0;
     mixer_callbacks := [];
     status := sample_status;
     dwlbSend := 0 |}.

(** Only the mixer is readable; [snd_mixer_handle_events] returns [ret]. *)
Definition env_mixer (ret : Z) (els : list mixer_elem) : Env :=
  {| poll_ret := 1; revents0 := 0; revents1 := 0; revents2 := POLLIN;
     udev_monitor_receive_device := None;
     signal_read_ok := true;
     snd_mixer_handle_events := ret;
     mixer_callbacks := els;
     status := sample_status;
     dwlbSend := 0 |}.

(** [poll] itself failed. *)
Definition env_poll_failed : Env :=
  {| poll_ret := -1; revents0 := 0; revents1 := 0; revents2 := 0;
     udev_monitor_receive_device := None;
     signal_read_ok := true;
     snd_mixer_handle_events := 0;
     mixer_callbacks := [];
     status := sample_status;
     dwlbSend := 0 |}.

(** A poll timeout while the dwlb socket refuses the line. *)
Definition env_sink_failed : Env :=
  {| poll_ret := 0; revents0 := 0; revents1 := 0; revents2 := 0;
     udev_monitor_receive_device := None;
     signal_read_ok := true;
     snd_mixer_handle_events := 0;
     mixer_callbacks := [];
     status := sample_status;
     dwlbSend := -1 |}.

(** One running ethernet interface with a 1000 Mb/s link. *)
Definition one_ethernet : net_env :=
  {| getifaddrs := Some [ {| ifa_name := "eth0"; ifa_flags := 65; ifa_family := Some 2 |} ];
     if_nametoindex := fun _ => 2;
     ethtool := fun _ => {| socket_ok := true; ioctl1 := Some (-3); ioctl2 := Some 1000 |};
     nlmsg_alloc_ok := fun _ => true;
     nl_batches := fun _ => [];
     displayStatus_init := "" |}.

Definition ethernet_status : status_env :=
  {| clock := Some (Some "30-10-2026 12:00");
     sys_capacity := Some 50;
     sys_power_now := Some 12000000;
     sys_temp := Some 45000;
     net := one_ethernet |}.

(** The thermal input cannot be read. *)
Definition no_thermal_status : status_env :=
  {| clock := Some (Some "30-10-2026 12:00");
     sys_capacity := Some 50;
     sys_power_now := Some 12000000;
     sys_temp := None;
     net := no_interfaces |}.

Definition text_setup : Setup :=
  {| outputFunction := text;
     sysfsThermalPath := "/sys/class/hwmon/hwmon0/temp1_input" |}.

Definition dwlb_setup : Setup :=
  {| outputFunction := dwlb;
     sysfsThermalPath := "/sys/class/hwmon/hwmon0/temp1_input" |}.

Definition nl_init_ok : nl_init_env :=
  {| socket_alloc_ok := true; genl_connect_ok := true;
     genl_ctrl_resolve := 28; cb_alloc_ok := true |}.

Definition nl_init_no_family : nl_init_env :=
  {| socket_alloc_ok := true; genl_connect_ok := true;
     genl_ctrl_resolve := -2; cb_alloc_ok := true |}.

Definition start_state : State :=
  initial_state nl_init_ok empty_slots 0 {| ifindex := 0; signal := 0 |}.

(** A state between two polls, slots cleared by the last refresh. *)
Definition refreshed_state : State :=
  {| timeout := STATUS_TIMEOUT;
     udevDisplayInfo := empty_slots;
     nlData := {| id := 28; wlanStatsResult := 0 |};
     wStats := {| ifindex := 0; signal := 0 |} |}.

Definition adaptor_dev : udev_device :=
  {| subsystem := Some "power_supply"; action := "change"; sysname := "AC";
     sysattrs := [("online", "1")] |}.

(** A stereo control at 50% and 40%, right channel muted. *)
Definition master_elem : mixer_elem :=
  {| elem_name := "Master"; mask := 1;
     has_playback_switch := true;
     playback_switch_left := Some 1;
     playback_switch_joined := false;
     playback_switch_right := Some 0;
     has_playback_volume := true;
     playback_volume_range := Some (0, 100);
     playback_volume_left := Some 50;
     playback_volume_joined := false;
     playback_volume_right := Some 40 |}.

(** The backlight appears: an "add" record without brightness attributes. *)
Definition backlight_add_dev : udev_device :=
  {| subsystem := Some "backlight"; action := "add"; sysname := "intel_backlight";
     sysattrs := [] |}.

(** An rfkill record without the soft and hard attributes. *)
Definition rfkill_bare_dev : udev_device :=
  {| subsystem := Some "rfkill"; action := "change"; sysname := "rfkill0";
     sysattrs := [("index", "0"); ("type", "wlan")] |}.

(** A backlight at 37 of 255. *)
Definition backlight_dim_dev : udev_device :=
  {| subsystem := Some "backlight"; action := "change"; sysname := "intel_backlight";
     sysattrs := [("actual_brightness", "37"); ("max_brightness", "255")] |}.

(** A mono control at 42 in the range 10..74, switched off; the event
    mask is [SND_CTL_EVENT_MASK_INFO]. *)
Definition pcm_elem : mixer_elem :=
  {| elem_name := "PCM"; mask := 2;
     has_playback_switch := true; playback_switch_left := Some 0;
     playback_switch_joined := true; playback_switch_right := None;
     has_playback_volume := true; playback_volume_range := Some (10, 74);
     playback_volume_left := Some 42; playback_volume_joined := true;
     playback_volume_right := None |}.

(** A host whose hwmon0 is an unlisted sensor and whose hwmon1 is the
    AMD CPU sensor. *)
Definition two_zones (path : string) : option string :=
  if String.eqb path "/sys/class/hwmon/hwmon0/name" then Some ("nvme" +:+ newline)
  else if String.eqb path "/sys/class/hwmon/hwmon1/name" then Some ("k10temp" +:+ newline)
  else None.

(** A host whose hwmon0 has an empty name file. *)
Definition empty_zone (path : string) : option string :=
  if String.eqb path "/sys/class/hwmon/hwmon0/name" then Some "" else None.

(** dwlb starts listening after three refused connections. *)
Definition dwlb_late (k : nat) : Dwlb.dwlb_env :=
  {| Dwlb.socket_ret := 5;
     Dwlb.connect_ret := if (k <? 3)%nat then -1 else 0;
     Dwlb.send_ret := 14 |}.






(** An unregistered subsystem with a device name of 19 characters. *)
Definition foo_long_dev : udev_device :=
  {| subsystem := Some "foo"; action := "change"; sysname := "1234567890123456789";
     sysattrs := [] |}.

(** An rfkill record with the soft attribute only, not blocked. *)
Definition rfkill_soft_dev : udev_device :=
  {| subsystem := Some "rfkill"; action := "change"; sysname := "rfkill0";
     sysattrs := [("index", "0"); ("type", "wlan"); ("soft", "1")] |}.

(** eth0 with its IPv4 address, the loopback, and eth0 again with its
    IPv6 address. *)
Definition eth0_v4 : ifaddrs :=
  {| ifa_name := "eth0"; ifa_flags := 65; ifa_family := Some 2 |}.
Definition lo_v4 : ifaddrs :=
  {| ifa_name := "lo"; ifa_flags := 73; ifa_family := Some 2 |}.
Definition eth0_v6 : ifaddrs :=
  {| ifa_name := "eth0"; ifa_flags := 65; ifa_family := Some 10 |}.

Definition rfkill_dev : udev_device :=
  {| subsystem := Some "rfkill"; action := "change"; sysname := "rfkill0";
     sysattrs := [("index", "0"); ("type", "wlan"); ("soft", "0"); ("hard", "0")] |}.

Definition battery_dev : udev_device :=
  {| subsystem := Some "power_supply"; action := "change"; sysname := "BAT1";
     sysattrs := [("capacity", "49")] |}.

Definition foo_dev : udev_device :=
  {| subsystem := Some "foo"; action := "change"; sysname := "foo0";
     sysattrs := [] |}.

(** * Properties *)

(** ** Strings *)

Example fmt_int_ex : fmt_int 0 = "0" /\ fmt_int 50 = "50" /\ fmt_int (-1) = "-1".
Proof. repeat split. Qed.

Example atol_ex : atol "100" = 100 /\ atol " -7x" = -7 /\ atol "" = 0.
Proof. repeat split. Qed.

Lemma str_app_cons (c : Ascii.ascii) (a b : string) :
  String c a +:+ b = String c (a +:+ b).
Proof. reflexivity. Qed.

Lemma str_app_nil_l (b : string) : "" +:+ b = b.
Proof. reflexivity. Qed.

Lemma str_length_app (a b : string) :
  String.length (a +:+ b) = (String.length a + String.length b)%nat.
Proof.
  induction a as [|c a IH]; [done|].
  rewrite str_app_cons. simpl. by rewrite IH.
Qed.

Lemma str_app_nil_r (a : string) : a +:+ "" = a.
Proof.
  induction a as [|c a IH]; [done|]. by rewrite str_app_cons, IH.
Qed.

Lemma str_app_assoc (a b c : string) : (a +:+ b) +:+ c = a +:+ (b +:+ c).
Proof.
  induction a as [|x a IH]; [done|]. by rewrite !str_app_cons, IH.
Qed.

Lemma str_take_all (n : nat) (s : string) :
  (String.length s <= n)%nat -> str_take n s = s.
Proof.
  revert n. induction s as [|c s IH]; intros [|n] H; simpl in *; try done; try lia.
  rewrite IH; [done | lia].
Qed.

Lemma str_take_length (n : nat) (s : string) :
  String.length (str_take n s) = Nat.min n (String.length s).
Proof.
  revert n. induction s as [|c s IH]; intros [|n]; simpl; try done.
  by rewrite IH.
Qed.

Lemma str_take_app (n : nat) (a b : string) :
  str_take n (a +:+ b)
  = if (n <=? String.length a)%nat then str_take n a
    else a +:+ str_take (n - String.length a) b.
Proof.
  revert n. induction a as [|c a IH]; intros n.
  - rewrite str_app_nil_l. destruct n; simpl; [by destruct b | done].
  - rewrite str_app_cons. destruct n as [|n]; simpl; [done|].
    rewrite IH. destruct (n <=? String.length a)%nat; [done|].
    by rewrite str_app_cons.
Qed.

Lemma strlen_app (a b : string) : strlen (a +:+ b) = strlen a + strlen b.
Proof. unfold strlen. rewrite str_length_app. lia. Qed.

Lemma strlen_nonneg (a : string) : 0 <= strlen a.
Proof. unfold strlen. lia. Qed.

Lemma snprintf_fits (size : Z) (s : string) :
  strlen s <= size - 1 -> snprintf size s = s.
Proof. unfold snprintf, strlen. intros H. apply str_take_all. lia. Qed.

Lemma snprintf_bound (size : Z) (s : string) :
  0 < size -> strlen (snprintf size s) <= size - 1.
Proof. unfold snprintf, strlen. intros H. rewrite str_take_length. lia. Qed.

Lemma strncat_fits (dest src : string) (n : Z) :
  strlen src <= n -> strncat dest src n = dest +:+ src.
Proof. unfold strncat, strlen. intros H. rewrite str_take_all; [done | lia]. Qed.

Lemma cat_app (l1 l2 : list string) : cat (l1 ++ l2) = cat l1 +:+ cat l2.
Proof.
  induction l1 as [|s l1 IH]; simpl; [done|]. by rewrite IH, str_app_assoc.
Qed.

Lemma cat_take_mono (l : list string) (a b : nat) :
  (a <= b)%nat -> strlen (cat (take a l)) <= strlen (cat (take b l)).
Proof.
  revert a b. induction l as [|s l IH]; intros a b H.
  - by rewrite !take_nil.
  - destruct a as [|a]; simpl.
    + apply strlen_nonneg.
    + destruct b as [|b]; [lia|]. simpl. rewrite !strlen_app.
      specialize (IH a b). lia.
Qed.

(** ** The composing loop *)

Lemma compose_loop_prefix (slots : list string) :
  Forall short slots ->
  forall j sBuf, exists k,
    (k <= length slots)%nat /\ compose_loop slots j sBuf = sBuf +:+ cat (take k slots).
Proof.
  induction 1 as [|s slots Hs _ IH]; intros j sBuf; simpl.
  - exists 0%nat. by rewrite str_app_nil_r.
  - destruct (MX_ELEMENT_CHARS <? j).
    + destruct (IH (j - strlen s) (strncat sBuf s MX_ELEMENT_CHARS)) as (k & Hk & ->).
      exists (S k). split; [lia|]. simpl.
      rewrite strncat_fits, str_app_assoc; [done | unfold short in Hs; lia].
    + exists 0%nat. split; [lia|]. by rewrite str_app_nil_r.
Qed.

Lemma compose_loop_bound (slots : list string) :
  Forall short slots ->
  forall j sBuf,
    strlen sBuf + j <= MX_STATUS_CHARS -> strlen sBuf < MX_STATUS_CHARS ->
    strlen (compose_loop slots j sBuf) < MX_STATUS_CHARS.
Proof.
  induction 1 as [|s slots Hs _ IH]; intros j sBuf Hj Hlt; simpl; [done|].
  destruct (MX_ELEMENT_CHARS <? j) eqn:Hgt; [|done].
  apply Z.ltb_lt in Hgt. unfold short in Hs.
  rewrite strncat_fits by lia. apply IH; rewrite strlen_app; lia.
Qed.

Lemma compose_loop_all (slots : list string) :
  Forall short slots ->
  forall j sBuf,
    MX_ELEMENT_CHARS + (Z.of_nat (length slots) - 1) * (MX_ELEMENT_CHARS - 1) < j ->
    compose_loop slots j sBuf = sBuf +:+ cat slots.
Proof.
  induction 1 as [|s slots Hs _ IH]; intros j sBuf Hj; simpl.
  - by rewrite str_app_nil_r.
  - unfold short in Hs. pose proof (strlen_nonneg s) as H0.
    assert ((MX_ELEMENT_CHARS <? j) = true) as ->.
    { apply Z.ltb_lt. simpl length in Hj. unfold MX_ELEMENT_CHARS in *. lia. }
    rewrite strncat_fits by lia.
    destruct slots as [|s' slots'].
    + simpl. by rewrite !str_app_nil_r.
    + rewrite IH, str_app_assoc; [done|].
      simpl length in *. unfold MX_ELEMENT_CHARS in *. lia.
Qed.

Lemma short_total (slots : list string) :
  Forall short slots ->
  strlen (cat slots) <= Z.of_nat (length slots) * (MX_ELEMENT_CHARS - 1).
Proof.
  induction 1 as [|s slots Hs _ IH]; simpl; [done|].
  unfold short in Hs. rewrite strlen_app. lia.
Qed.

(** C1.  For fragments that each fit an element buffer, the line
    composed by [udevStatus] is the concatenation, in order, of the
    first [k] whole fragments for some [k], and it fits [sBuf] with its
    terminator; no fragment at or after the first one whose cumulative
    length exceeds [MX_STATUS_CHARS - 1] is part of it; for the
    [MX_NUMBER_ELEMENTS] slots of the array (or fewer) the total length
    is at most [MX_STATUS_CHARS - 1] and the line is the concatenation
    of all of them.  The five elements of [getStatusInfo] are likewise
    concatenated whole. *)
Theorem compose_whole_fragments (frs : list string) :
  Forall short frs ->
  strlen (compose "" frs) <= MX_STATUS_CHARS - 1
  /\ (exists k, (k <= length frs)%nat
       /\ compose "" frs = cat (take k frs)
       /\ forall m, MX_STATUS_CHARS - 1 < strlen (cat (take (S m) frs)) -> (k <= m)%nat)
  /\ (Z.of_nat (length frs) <= MX_NUMBER_ELEMENTS ->
      strlen (cat frs) <= MX_STATUS_CHARS - 1 /\ compose "" frs = cat frs)
  /\ (forall net tmp pwr bat tml,
        frs = [net; tmp; pwr; bat; tml] ->
        status_line net tmp pwr bat tml = cat frs).
Proof.
  intros Hshort.
  assert (Htake : Forall short (take (Z.to_nat MX_NUMBER_ELEMENTS) frs))
    by (by apply Forall_take).
  assert (Hbound : strlen (compose "" frs) <= MX_STATUS_CHARS - 1).
  { unfold compose.
    pose proof (compose_loop_bound _ Htake MX_STATUS_CHARS "") as H.
    unfold strlen at 1 2 in H. simpl in H. unfold MX_STATUS_CHARS in *. lia. }
  split; [exact Hbound|]. split; [|split].
  - unfold compose in *.
    destruct (compose_loop_prefix _ Htake MX_STATUS_CHARS "") as (k & Hk & Heq).
    rewrite length_take in Hk. rewrite take_take in Heq.
    exists (Nat.min k (Z.to_nat MX_NUMBER_ELEMENTS)).
    split; [lia|]. split; [by rewrite Heq|].
    intros m Hm. rewrite Heq, str_app_nil_l in Hbound.
    destruct (decide (Nat.min k (Z.to_nat MX_NUMBER_ELEMENTS) <= m)%nat) as [|Hgt]; [done|].
    pose proof (cat_take_mono frs (S m) (Nat.min k (Z.to_nat MX_NUMBER_ELEMENTS))) as Hmono.
    lia.
  - intros Hlen.
    pose proof (short_total _ Hshort) as Htot.
    assert (Z.of_nat (length frs) <= 6) as Hlen6 by exact Hlen.
    split; [unfold MX_STATUS_CHARS, MX_ELEMENT_CHARS in *; lia|].
    unfold compose. rewrite take_ge by (change (Z.to_nat MX_NUMBER_ELEMENTS) with 6%nat; lia).
    rewrite compose_loop_all; [done..|].
    unfold MX_STATUS_CHARS, MX_ELEMENT_CHARS. lia.
  - intros net tmp pwr bat tml ->.
    pose proof (short_total _ Hshort) as Htot. simpl in Htot |- *.
    unfold status_line. rewrite str_app_nil_r in *.
    apply snprintf_fits. unfold MX_STATUS_CHARS, MX_ELEMENT_CHARS in *. lia.
Qed.

Lemma compose_whole_fragments_witness :
  Forall short ["LCD: 50% "; ""; "power_supply: AC: Plugged "; ""; ""; ""]
  /\ compose "" ["LCD: 50% "; ""; "power_supply: AC: Plugged "; ""; ""; ""]
     = "LCD: 50% power_supply: AC: Plugged ".
Proof.
  assert (H : Forall short ["LCD: 50% "; ""; "power_supply: AC: Plugged "; ""; ""; ""]).
  { repeat constructor. }
  split; [exact H|].
  destruct (compose_whole_fragments _ H) as (_ & _ & Hall & _).
  destruct Hall as [_ ->]; [vm_compute; discriminate | reflexivity].
Defined.

(** ** The poll loop: timeouts *)

(** Case analysis on the innermost scrutinee of the goal. *)
Ltac innermost x tac :=
  lazymatch x with
  | context [if ?b then _ else _] => innermost b tac
  | context [match ?y with _ => _ end] => innermost y tac
  | _ => tac x
  end.

Ltac case_step :=
  match goal with
  | |- context [if ?b then _ else _] => innermost b ltac:(fun y => destruct y eqn:?)
  | |- context [match ?x with _ => _ end] => innermost x ltac:(fun y => destruct y eqn:?)
  end.

Ltac cases := repeat (case_step; simpl).

Ltac loop_cases := unfold loop_body, refresh; cases.

Lemma loop_body_poll_timeout (cfg : Setup) (st : State) (e : Env) :
  poll_timeout (loop_body cfg st e) = timeout st.
Proof. loop_cases; reflexivity. Qed.

Lemma loop_body_next_timeout (cfg : Setup) (st st' : State) (e : Env) :
  next (loop_body cfg st e) = Continue st' ->
  timeout st' = STATUS_TIMEOUT \/ timeout st' = NOTIFY_TIMEOUT.
Proof. loop_cases; intros H; inversion H; subst; simpl; auto. Qed.

Lemma poll_timeouts_shape (cfg : Setup) (envs : list Env) :
  forall st,
    poll_timeouts cfg st envs = []
    \/ exists rest,
         poll_timeouts cfg st envs = timeout st :: rest
         /\ Forall (fun t => t = STATUS_TIMEOUT \/ t = NOTIFY_TIMEOUT) rest.
Proof.
  unfold poll_timeouts.
  induction envs as [|e envs IH]; intros st; simpl; [by left|].
  right. rewrite loop_body_poll_timeout.
  destruct (next (loop_body cfg st e)) as [st'| | |] eqn:Hnext;
    try (exists []; split; [reflexivity | constructor]).
  destruct (IH st') as [-> | (rest & -> & Hrest)].
  - exists []. split; [reflexivity | constructor].
  - exists (timeout st' :: rest). split; [reflexivity|].
    constructor; [|exact Hrest].
    by apply (loop_body_next_timeout cfg st st' e).
Qed.




(** C3 (amended).  The first [poll] call is made with the start-up
    timeout of 1000 ms; every later [poll] call is made with
    [STATUS_TIMEOUT] (10000 ms) or [NOTIFY_TIMEOUT] (2000 ms). *)
Theorem poll_timeout_values (cfg : Setup) (exit_request : bool)
    (nl_init : nl_init_env) (stack_slots : list string) (stack_flag : Z)
    (stack_wStats : si_wStats) (envs : list Env) :
  let ts := map poll_timeout
              (main_loop cfg exit_request
                 (initial_state nl_init stack_slots stack_flag stack_wStats) envs) in
  ts = []
  \/ exists rest,
       ts = 1000 :: rest
       /\ Forall (fun t => t = STATUS_TIMEOUT \/ t = NOTIFY_TIMEOUT) rest.
Proof.
  unfold main_loop. destruct exit_request; simpl; [by left|].
  apply (poll_timeouts_shape cfg envs
           (initial_state nl_init stack_slots stack_flag stack_wStats)).
Qed.

(** C3 as stated fails: the very first [poll] call of a run uses 1000,
    which is neither [STATUS_TIMEOUT] nor [NOTIFY_TIMEOUT]. *)
Lemma first_poll_timeout_is_startup_value :
  map poll_timeout (main_loop text_setup false start_state [env_timeout]) = [1000]
  /\ 1000 <> STATUS_TIMEOUT /\ 1000 <> NOTIFY_TIMEOUT.
Proof. repeat split; discriminate. Qed.

(** ** The slot array *)

Lemma clear_slots_all (slots : list string) :
  Z.of_nat (length slots) = MX_NUMBER_ELEMENTS -> clear_slots slots = empty_slots.
Proof.
  intros H. assert (length slots = 6%nat) as Hlen by (change MX_NUMBER_ELEMENTS with 6 in H; lia).
  destruct slots as [|a [|b [|c [|d [|f [|g [|h r]]]]]]]; try discriminate Hlen.
  reflexivity.
Qed.

Lemma apply_writes_length (ws : list slot_write) :
  forall slots, length (apply_writes slots ws) = length slots.
Proof.
  unfold apply_writes.
  induction ws as [|w ws IH]; intros slots; simpl; [done|].
  by rewrite IH, length_insert.
Qed.

Lemma udevStatus_length (sBuf line : string) (slots slots' : list string)
    (dev : udev_device) (ret : Z) :
  udevStatus sBuf slots dev = Some (ret, slots', line) -> length slots' = length slots.
Proof.
  unfold udevStatus. destruct (subsystem dev) as [sub|]; [|by intros [= _ <- _]].
  destruct (udevStatus_writes dev sub) as [ws|]; [|discriminate].
  intros [= _ <- _]. apply apply_writes_length.
Qed.

Lemma handle_events_length (st : State) (e : Env) (slots : list string)
    (sBuf : string) (ds : list diag) :
  handle_events st e = EvLine slots sBuf ds ->
  length slots = length (udevDisplayInfo st).
Proof.
  unfold handle_events.
  destruct (poll_error e); [discriminate|].
  destruct (has (revents0 e) POLLIN).
  - destruct (udev_monitor_receive_device e) as [dev|].
    + destruct (udevStatus "" (udevDisplayInfo st) dev) as [[[r sl] sb]|] eqn:Hu;
        [|discriminate].
      apply udevStatus_length in Hu.
      cases; intros [= <- _ _] || discriminate; exact Hu.
    + cases; intros [= <- _ _] || discriminate; reflexivity.
  - cases; intros [= <- _ _] || discriminate; reflexivity.
Qed.

(** The sample state [refreshed_state] is the state after the first
    refresh of a run. *)
Lemma refreshed_state_reached :
  next (loop_body text_setup start_state env_timeout) = Continue refreshed_state.
Proof. reflexivity. Qed.

(** ** The poll loop: what ends it *)

Lemma poll_error_false (e : Env) :
  poll_error e = false ->
  has (revents0 e) (Z.lor POLLERR POLLNVAL) = false
  /\ has (revents1 e) (Z.lor POLLERR POLLNVAL) = false
  /\ has (revents2 e) (Z.lor POLLERR POLLNVAL) = false.
Proof.
  unfold poll_error. intros H.
  apply orb_false_elim in H as [H H2]. apply orb_false_elim in H as [H0 H1]. auto.
Qed.

(** C7.  A failed drain does not end the loop: with [poll] not
    negative, no error event, the signal descriptor not readable and
    the sink not failing, the loop body never breaks.  A NULL device
    from the udev monitor, resp. a negative return of
    [snd_mixer_handle_events], leaves the iteration as it would be with
    that source not readable, apart from the message on the error
    stream.  A negative return of [poll] ends the loop, and so does a
    sink that returns -1 for a line handed to it. *)
Theorem drain_failures_not_fatal (cfg : Setup) (st : State) (e : Env) :
  (0 <= poll_ret e -> poll_error e = false -> has (revents1 e) POLLIN = false ->
   sbOut (outputFunction cfg) (dwlbSend e) <> -1 ->
   next (loop_body cfg st e) <> Break)
  /\ (poll_error e = false -> has (revents0 e) POLLIN = true ->
      udev_monitor_receive_device e = None ->
      handle_events st e
      = diag_first UdevReceiveFailed (handle_events st (udev_not_ready e)))
  /\ (poll_error e = false -> has (revents1 e) POLLIN = false ->
      has (revents2 e) POLLIN = true -> snd_mixer_handle_events e < 0 ->
      handle_events st e
      = diag_last (MixerEventsFailed (snd_mixer_handle_events e))
                  (handle_events st (mixer_not_ready e)))
  /\ (poll_ret e < 0 ->
      next (loop_body cfg st e) = Break /\ emitted (loop_body cfg st e) = [])
  /\ (sbOut (outputFunction cfg) (dwlbSend e) = -1 ->
      emitted (loop_body cfg st e) <> [] ->
      next (loop_body cfg st e) = Break).
Proof.
  repeat split.
  - intros Hret Herr Hsig Hsink.
    assert ((sbOut (outputFunction cfg) (dwlbSend e) =? -1) = false) as Hs by lia.
    unfold loop_body, refresh, handle_events.
    rewrite Herr, Hsig, Hs.
    assert ((poll_ret e <? 0) = false) as -> by lia.
    cases; simpl; discriminate.
  - intros Herr Hin Hdev.
    destruct (poll_error_false _ Herr) as (H0 & H1 & H2).
    unfold handle_events.
    assert (poll_error (udev_not_ready e) = false) as ->.
    { unfold poll_error. simpl. by rewrite H1, H2. }
    rewrite Herr, Hin, Hdev. simpl.
    cases; reflexivity.
  - intros Herr Hsig Hin Hneg.
    destruct (poll_error_false _ Herr) as (H0 & H1 & H2).
    unfold handle_events.
    assert (poll_error (mixer_not_ready e) = false) as ->.
    { unfold poll_error. simpl. by rewrite H0, H1. }
    rewrite Herr. simpl. rewrite Hsig, Hin.
    assert ((snd_mixer_handle_events e <? 0) = true) as -> by lia.
    cases; simpl; rewrite ?app_nil_r; reflexivity.
  - unfold loop_body. by assert ((poll_ret e <? 0) = true) as -> by lia.
  - unfold loop_body. by assert ((poll_ret e <? 0) = true) as -> by lia.
  - intros Hsink.
    assert ((sbOut (outputFunction cfg) (dwlbSend e) =? -1) = true) as Hs by lia.
    unfold loop_body, refresh. rewrite Hs.
    cases; simpl; intros H; done.
Qed.

Lemma drain_failures_not_fatal_witness :
  (next (loop_body text_setup refreshed_state (env_udev None)) <> Break
   /\ handle_events refreshed_state (env_udev None)
      = EvLine empty_slots "" [UdevReceiveFailed])
  /\ (next (loop_body text_setup refreshed_state (env_mixer (-19) [])) <> Break
      /\ handle_events refreshed_state (env_mixer (-19) [])
         = EvLine empty_slots "" [MixerEventsFailed (-19)])
  /\ next (loop_body text_setup refreshed_state env_poll_failed) = Break
  /\ next (loop_body dwlb_setup refreshed_state env_sink_failed) = Break.
Proof.
  split; [|split; [|split]].
  - destruct (drain_failures_not_fatal text_setup refreshed_state (env_udev None))
      as (Hgo & Hudev & _).
    split.
    + apply Hgo; [discriminate | reflexivity | reflexivity | discriminate].
    + rewrite Hudev; reflexivity.
  - destruct (drain_failures_not_fatal text_setup refreshed_state (env_mixer (-19) []))
      as (Hgo & _ & Hmix & _).
    split.
    + apply Hgo; [discriminate | reflexivity | reflexivity | discriminate].
    + rewrite Hmix; reflexivity.
  - destruct (drain_failures_not_fatal text_setup refreshed_state env_poll_failed)
      as (_ & _ & _ & Hpoll & _).
    apply Hpoll. reflexivity.
  - destruct (drain_failures_not_fatal dwlb_setup refreshed_state env_sink_failed)
      as (_ & _ & _ & _ & Hsink).
    apply Hsink; [reflexivity | discriminate].
Defined.

(** ** The dispatch table *)

Example backlight_ex :
  udevStatus "" empty_slots backlight_dev
  = Some (0, ["LCD: 50% "; ""; ""; ""; ""; ""], "LCD: 50% ").
Proof. reflexivity. Qed.

Example handlers_ex :
  rfKillStatus rfkill_dev = Some (0, Some "wlan [rfkill index:0]: On ")
  /\ powerStatus adaptor_dev = Some (0, Some "power_supply: AC: Plugged ")
  /\ powerStatus battery_dev = Some (0, Some "")
  /\ udevStatus "" empty_slots foo_dev
     = Some (0, [""; ""; ""; ""; ""; "foo: foo0: change "], "foo: foo0: change ").
Proof. repeat split. Qed.

Example mixer_ex :
  handle_events refreshed_state (env_mixer 0 [master_elem])
  = EvLine empty_slots "Master: 50%:!40%" [].
Proof. reflexivity. Qed.

Lemma backlightStatus_ok : handler_ok backlightStatus.
Proof.
  intros dev r w. unfold backlightStatus. cases; intros [= <- <-]; left; eauto.
Qed.

Lemma rfKillStatus_ok : handler_ok rfKillStatus.
Proof.
  intros dev r w. unfold rfKillStatus. cases; intros [= <- <-]; eauto.
Qed.

Lemma powerStatus_ok : handler_ok powerStatus.
Proof.
  intros dev r w. unfold powerStatus. cases; intros [= <- <-]; left; eauto.
Qed.

Lemma udevActions_ok : Forall (fun p => handler_ok p.2) udevActions.
Proof.
  unfold udevActions.
  apply Forall_cons; split; [exact backlightStatus_ok|].
  apply Forall_cons; split; [exact rfKillStatus_ok|].
  apply Forall_cons; split; [exact powerStatus_ok|].
  apply Forall_nil_2.
Qed.

Lemma udevActions_distinct : NoDup udevActions.*1.
Proof. apply (bool_decide_unpack _). by vm_compute. Qed.

Lemma dispatch_no_match (tbl : list (string * handler)) (udevSubsystem : string) :
  udevSubsystem ∉ tbl.*1 ->
  forall i dev ret ws, dispatch tbl i dev udevSubsystem ret ws = Some (ret, ws).
Proof.
  induction tbl as [|[name f] tbl IH]; intros Hnot i dev ret ws; simpl; [done|].
  simpl in Hnot. apply not_elem_of_cons in Hnot as [Hne Hnot].
  assert (String.eqb name udevSubsystem = false) as ->
    by (apply String.eqb_neq; congruence).
  by apply IH.
Qed.

Lemma dispatch_at_most_one (tbl : list (string * handler)) :
  NoDup tbl.*1 -> Forall (fun p => handler_ok p.2) tbl ->
  forall i dev udevSubsystem ret ws r ws',
    dispatch tbl i dev udevSubsystem ret ws = Some (r, ws') ->
    (r = ret /\ ws' = ws) \/ (r = -1 /\ ws' = ws)
    \/ (r = 0 /\ exists j s, ws' = ws ++ [(j, s)]).
Proof.
  induction tbl as [|[name f] tbl IH]; intros Hnd Hok i dev sub ret ws r ws'; simpl.
  - intros [= <- <-]. by left.
  - simpl in Hnd. apply NoDup_cons in Hnd as [Hnot Hnd].
    apply Forall_cons in Hok as [Hf Hok]. simpl in Hf.
    destruct (String.eqb name sub) eqn:Heq.
    + apply String.eqb_eq in Heq as ->.
      destruct (f dev) as [[r0 [s|]]|] eqn:Hcall; [| |discriminate].
      * rewrite dispatch_no_match by done. intros [= <- <-].
        destruct (Hf _ _ _ Hcall) as [[-> _] | [_ [=]]].
        right; right. eauto.
      * rewrite dispatch_no_match by done. intros [= <- <-].
        destruct (Hf _ _ _ Hcall) as [[_ [s [=]]] | [-> _]].
        right; by left.
    + by apply IH.
Qed.

Lemma udevStatus_writes_one (dev : udev_device) (udevSubsystem : string)
    (ws : list slot_write) :
  udevStatus_writes dev udevSubsystem = Some ws -> length ws = 1%nat.
Proof.
  unfold udevStatus_writes.
  change (take (Z.to_nat MX_NUMBER_ELEMENTS) udevActions) with udevActions.
  destruct (String.eqb "change" (action dev)).
  - destruct (dispatch udevActions 0 dev udevSubsystem (-1) []) as [[r ws0]|] eqn:Hd;
      [|discriminate].
    apply (dispatch_at_most_one _ udevActions_distinct udevActions_ok) in Hd
      as [[-> ->] | [[-> ->] | [-> (j & s & ->)]]]; simpl; by intros [= <-].
  - simpl. by intros [= <-].
Qed.

Lemma udevStatus_one_write (sBuf line : string) (slots slots' : list string)
    (dev : udev_device) (ret : Z) :
  udevStatus sBuf slots dev = Some (ret, slots', line) ->
  exists ws, (length ws <= 1)%nat /\ slots' = apply_writes slots ws.
Proof.
  unfold udevStatus. destruct (subsystem dev) as [sub|].
  - destruct (udevStatus_writes dev sub) as [ws|] eqn:Hws; [|discriminate].
    intros [= _ <- _]. exists ws. apply udevStatus_writes_one in Hws. split; [lia|done].
  - intros [= _ <- _]. exists []. split; [simpl; lia | done].
Qed.

Lemma handle_events_one_write (st : State) (e : Env) (slots : list string)
    (sBuf : string) (ds : list diag) :
  handle_events st e = EvLine slots sBuf ds ->
  exists ws, (length ws <= 1)%nat /\ slots = apply_writes (udevDisplayInfo st) ws.
Proof.
  unfold handle_events.
  destruct (poll_error e); [discriminate|].
  destruct (has (revents0 e) POLLIN).
  - destruct (udev_monitor_receive_device e) as [dev|].
    + destruct (udevStatus "" (udevDisplayInfo st) dev) as [[[r sl] sb]|] eqn:Hu;
        [|discriminate].
      apply udevStatus_one_write in Hu.
      cases; intros [= <- _ _] || discriminate; exact Hu.
    + cases; intros [= <- _ _] || discriminate; exists []; (split; [simpl; lia | done]).
  - cases; intros [= <- _ _] || discriminate; exists []; (split; [simpl; lia | done]).
Qed.

(** C4 (amended).  The slots are cleared by the refresh (after a poll
    timeout or an empty event line), not when an event is dispatched:
    an iteration that hands an event line to the sink keeps every slot
    as it was before the iteration, except for the at most one slot
    [udevStatus] stored into; and one call of [udevStatus] makes exactly
    one store into the slot array before it composes the line. *)
Theorem slots_lifecycle (cfg : Setup) (st st' : State) (e : Env) :
  next (loop_body cfg st e) = Continue st' ->
  Z.of_nat (length (udevDisplayInfo st)) = MX_NUMBER_ELEMENTS ->
  (forall line, emitted (loop_body cfg st e) = [StatusLine line] ->
                udevDisplayInfo st' = empty_slots)
  /\ (forall line, emitted (loop_body cfg st e) = [EventLine line] ->
        exists ws, (length ws <= 1)%nat
                   /\ udevDisplayInfo st' = apply_writes (udevDisplayInfo st) ws)
  /\ (forall dev udevSubsystem ws,
        udevStatus_writes dev udevSubsystem = Some ws -> length ws = 1%nat).
Proof.
  intros Hnext Hlen. split; [|split].
  - revert Hnext. unfold loop_body, refresh.
    destruct (poll_ret e <? 0); [discriminate|].
    destruct (0 <? poll_ret e).
    + destruct (handle_events st e) as [|ds|slots sBuf ds] eqn:Hev; try discriminate.
      pose proof (handle_events_length _ _ _ _ _ Hev) as Hl.
      cases; try discriminate; intros [= <-] line [=]; simpl.
      apply clear_slots_all. by rewrite Hl.
    + cases; try discriminate; intros [= <-] line [=]; simpl.
      by apply clear_slots_all.
  - revert Hnext. unfold loop_body, refresh.
    destruct (poll_ret e <? 0); [discriminate|].
    destruct (0 <? poll_ret e).
    + destruct (handle_events st e) as [|ds|slots sBuf ds] eqn:Hev; try discriminate.
      apply handle_events_one_write in Hev.
      cases; try discriminate; intros [= <-] line [=]; simpl. exact Hev.
    + cases; try discriminate; intros [= <-] line [=].
  - apply udevStatus_writes_one.
Qed.

Lemma slots_lifecycle_witness :
  udevDisplayInfo refreshed_state = empty_slots
  /\ exists st',
      next (loop_body text_setup refreshed_state (env_udev (Some backlight_dev)))
      = Continue st'
      /\ exists ws, (length ws <= 1)%nat
                    /\ udevDisplayInfo st' = apply_writes empty_slots ws.
Proof.
  split; [reflexivity|].
  eexists. split; [reflexivity|].
  destruct (slots_lifecycle text_setup refreshed_state _
              (env_udev (Some backlight_dev)) eq_refl eq_refl) as (_ & Hev & _).
  exact (Hev "LCD: 50% " eq_refl).
Defined.

(** C4 as stated fails: from the start of [main], after the first
    refresh, a backlight event followed by an rfkill event (before the
    next refresh) finds the backlight fragment still in its slot when
    the second event is dispatched, and the second line shows both. *)
Lemma slots_not_cleared_between_events :
  map emitted (main_loop text_setup false start_state
                 [env_timeout; env_udev (Some backlight_dev);
                  env_udev (Some rfkill_dev)])
  = [[StatusLine "tmp:45C pwr:12W bat:50% 30-10-2026 12:00"];
     [EventLine "LCD: 50% "];
     [EventLine "LCD: 50% wlan [rfkill index:0]: On "]]
  /\ exists st1,
      next (loop_body text_setup refreshed_state (env_udev (Some backlight_dev)))
      = Continue st1
      /\ udevDisplayInfo st1 = ["LCD: 50% "; ""; ""; ""; ""; ""]
      /\ udevDisplayInfo st1 <> empty_slots
      /\ handle_events st1 (env_udev (Some rfkill_dev))
         = EvLine ["LCD: 50% "; "wlan [rfkill index:0]: On "; ""; ""; ""; ""]
                  "LCD: 50% wlan [rfkill index:0]: On " [].
Proof.
  split; [reflexivity|].
  eexists. split; [reflexivity|]. split; [reflexivity|].
  split; [discriminate | reflexivity].
Qed.

(** ** The station query *)

Lemma last_recorded_cons (old : Z) (m : nl_msg) (msgs : list nl_msg) :
  last_recorded old (m :: msgs)
  = last_recorded (match recorded m with Some v => v | None => old end) msgs.
Proof.
  unfold last_recorded, omap. simpl. destruct (recorded m) as [v|]; [|done].
  rewrite last_cons. by destruct (last _).
Qed.

Lemma last_recorded_app (old : Z) (l1 l2 : list nl_msg) :
  last_recorded old (l1 ++ l2) = last_recorded (last_recorded old l1) l2.
Proof.
  revert old. induction l1 as [|m l1 IH]; intros old; [done|].
  rewrite <- app_comm_cons, !last_recorded_cons. apply IH.
Qed.

Lemma getWifiStats_nl_cb_recorded (sta : option sta_info) (w : si_wStats) :
  getWifiStats_nl_cb sta w
  = ({| ifindex := ifindex w;
        signal := match recorded (MsgValid sta) with
                  | Some v => v
                  | None => signal w
                  end |}, NL_SKIP).
Proof. destruct w, sta as [[|[u|]]|]; reflexivity. Qed.

Lemma nl_recvmsgs_signal (batch : list nl_msg) :
  forall flag w,
    (nl_recvmsgs batch flag w).2
    = {| ifindex := ifindex w;
         signal := last_recorded (signal w) (dispatched batch) |}.
Proof.
  induction batch as [|m batch IH]; intros flag w.
  - by destruct w.
  - destruct m as [sta| |]; simpl.
    + rewrite getWifiStats_nl_cb_recorded, IH, last_recorded_cons. reflexivity.
    + rewrite IH, last_recorded_cons. reflexivity.
    + by destruct w.
Qed.

Lemma nl_recvmsgs_flag_done (batch : list nl_msg) :
  forall flag w, MsgDone ∈ dispatched batch -> (nl_recvmsgs batch flag w).1 = 0.
Proof.
  assert (Hzero : forall b w, (nl_recvmsgs b 0 w).1 = 0).
  { induction b as [|m b IH]; intros w; [done|].
    destruct m as [sta| |]; simpl; [|apply IH|done].
    rewrite getWifiStats_nl_cb_recorded. apply IH. }
  induction batch as [|m batch IH]; intros flag w Hin; simpl in Hin.
  - by apply elem_of_nil in Hin.
  - destruct m as [sta| |]; simpl.
    + rewrite getWifiStats_nl_cb_recorded. apply IH.
      apply elem_of_cons in Hin as [[=]|Hin]; exact Hin.
    + apply Hzero.
    + apply elem_of_cons in Hin as [[=]|Hin]. by apply elem_of_nil in Hin.
Qed.

Lemma nl_recvmsgs_flag_keep (batch : list nl_msg) :
  forall flag w, MsgDone ∉ dispatched batch -> (nl_recvmsgs batch flag w).1 = flag.
Proof.
  induction batch as [|m batch IH]; intros flag w Hnot; [done|].
  destruct m as [sta| |]; simpl in *.
  - rewrite getWifiStats_nl_cb_recorded. apply IH.
    intros Hin. apply Hnot. by apply elem_of_cons; right.
  - exfalso. apply Hnot. by apply elem_of_cons; left.
  - done.
Qed.

Lemma recv_loop_finished (post : list (list nl_msg)) (w : si_wStats) :
  recv_loop post 0 w = Some (0, w).
Proof. by destruct post. Qed.

Lemma recv_loop_until_done (pre : list (list nl_msg)) :
  forall (b : list nl_msg) (post : list (list nl_msg)) (flag : Z) (w : si_wStats),
    0 < flag ->
    Forall (fun b' => MsgDone ∉ dispatched b') pre ->
    MsgDone ∈ dispatched b ->
    recv_loop (pre ++ b :: post) flag w
    = Some (0, {| ifindex := ifindex w;
                  signal := last_recorded (signal w)
                              (concat (map dispatched (pre ++ [b]))) |}).
Proof.
  induction pre as [|b' pre IH]; intros b post flag w Hflag Hpre Hdone; simpl.
  - assert ((0 <? flag) = true) as -> by lia.
    pose proof (nl_recvmsgs_signal b flag w) as Hs.
    pose proof (nl_recvmsgs_flag_done b flag w Hdone) as Hf.
    destruct (nl_recvmsgs b flag w) as [f w']. simpl in *. subst.
    by rewrite recv_loop_finished, app_nil_r.
  - apply Forall_cons in Hpre as [Hb' Hpre].
    assert ((0 <? flag) = true) as -> by lia.
    pose proof (nl_recvmsgs_signal b' flag w) as Hs.
    pose proof (nl_recvmsgs_flag_keep b' flag w Hb') as Hf.
    destruct (nl_recvmsgs b' flag w) as [f w']. simpl in *. subst.
    rewrite IH by done. simpl. by rewrite last_recorded_app.
Qed.

(** C5 (amended).  Once a receive call has dispatched the end-of-dump
    message to [finish_handler], the loop of [getWifiStatus] stops
    (whatever the transport would deliver afterwards), the completion
    flag is 0, and [signal] holds the last value stored by
    [getWifiStats_nl_cb] for the messages dispatched so far: the signed
    byte of the signal attribute, or 0 for station info without that
    attribute.  When no dispatched message made the callback store a
    value, [signal] keeps the value it had before the query. *)
Theorem wifi_query_result (pre : list (list nl_msg)) (b : list nl_msg)
    (post : list (list nl_msg)) (nlData : si_nlData) (wStats : si_wStats) :
  0 <= ifindex wStats ->
  Forall (fun b' => MsgDone ∉ dispatched b') pre ->
  MsgDone ∈ dispatched b ->
  getWifiStatus true (pre ++ b :: post) nlData wStats
  = Some (0, {| id := id nlData; wlanStatsResult := 0 |},
          {| ifindex := ifindex wStats;
             signal := last_recorded (signal wStats)
                         (concat (map dispatched (pre ++ [b]))) |}).
Proof.
  intros Hidx Hpre Hdone. unfold getWifiStatus.
  assert ((ifindex wStats <? 0) = false) as -> by lia. simpl.
  by rewrite (recv_loop_until_done pre b post 1 wStats) by (done || lia).
Qed.

Lemma wifi_query_result_witness :
  getWifiStatus true
    [[MsgValid (Some (StaAttrs (Some 196)))];
     [MsgValid (Some (StaAttrs (Some 200))); MsgDone];
     [MsgValid (Some (StaAttrs (Some 1)))]]
    {| id := 28; wlanStatsResult := 0 |} {| ifindex := 3; signal := 0 |}
  = Some (0, {| id := 28; wlanStatsResult := 0 |}, {| ifindex := 3; signal := -56 |}).
Proof.
  apply (wifi_query_result
           [[MsgValid (Some (StaAttrs (Some 196)))]]
           [MsgValid (Some (StaAttrs (Some 200))); MsgDone]
           [[MsgValid (Some (StaAttrs (Some 1)))]]
           {| id := 28; wlanStatsResult := 0 |} {| ifindex := 3; signal := 0 |}).
  - simpl. lia.
  - apply (bool_decide_unpack _). by vm_compute.
  - apply (bool_decide_unpack _). by vm_compute.
Defined.

(** C5 as stated fails: a first query stores -60; a second query whose
    only response is the end of the dump, or a data message without
    station info, carries no signal attribute and yet leaves -60, not
    0, in [signal]. *)
Lemma wifi_signal_kept_without_station_info :
  getWifiStatus true [[MsgValid (Some (StaAttrs (Some 196))); MsgDone]]
    {| id := 28; wlanStatsResult := 0 |} {| ifindex := 3; signal := 0 |}
  = Some (0, {| id := 28; wlanStatsResult := 0 |}, {| ifindex := 3; signal := -60 |})
  /\ getWifiStatus true [[MsgDone]]
       {| id := 28; wlanStatsResult := 0 |} {| ifindex := 3; signal := -60 |}
     = Some (0, {| id := 28; wlanStatsResult := 0 |}, {| ifindex := 3; signal := -60 |})
  /\ getWifiStatus true [[MsgValid None; MsgDone]]
       {| id := 28; wlanStatsResult := 0 |} {| ifindex := 3; signal := -60 |}
     = Some (0, {| id := 28; wlanStatsResult := 0 |}, {| ifindex := 3; signal := -60 |})
  /\ -60 <> 0.
Proof. repeat split; discriminate. Qed.

(** ** The elements of the periodic line *)

Lemma bat_element_policy (batCapacityNow : Z) :
  (15 < batCapacityNow ->
   bat_element batCapacityNow
   = snprintf MX_ELEMENT_CHARS ("bat:" +:+ fmt_int batCapacityNow +:+ "% "))
  /\ (batCapacityNow <= 15 -> batCapacityNow <> -1 ->
      bat_element batCapacityNow
      = snprintf MX_ELEMENT_CHARS ("[!]bat:" +:+ fmt_int batCapacityNow +:+ "% "))
  /\ (batCapacityNow = -1 -> bat_element batCapacityNow = "").
Proof.
  unfold bat_element. repeat split.
  - intros H. by assert ((15 <? batCapacityNow) = true) as -> by lia.
  - intros H1 H2. assert ((15 <? batCapacityNow) = false) as -> by lia.
    by assert ((batCapacityNow =? -1) = false) as -> by lia.
  - by intros ->.
Qed.

Lemma bat_element_examples :
  bat_element 10 = "[!]bat:10% " /\ bat_element 50 = "bat:50% "
  /\ bat_element (getSysInfo None) = "".
Proof. repeat split. Qed.

Lemma pwr_element_policy (powerNow : Z) :
  (0 < powerNow ->
   pwr_element powerNow = snprintf MX_ELEMENT_CHARS ("pwr:" +:+ fmt_int powerNow +:+ "W "))
  /\ (powerNow <= 0 -> pwr_element powerNow = "").
Proof.
  unfold pwr_element. split; intros H.
  - by assert ((0 <? powerNow) = true) as -> by lia.
  - by assert ((0 <? powerNow) = false) as -> by lia.
Qed.

(** C6.  The temperature element is not suppressed by the sentinel:
    when the thermal input reads as -1, [getTmpInfo] returns -1 and
    [getStatusInfo], which [main] always calls with the (non-NULL)
    path array, puts "tmp:-1C " on the line. *)
Theorem temperature_sentinel_is_shown (path : string) :
  getSysInfo None = -1
  /\ getTmpInfo None = -1
  /\ tmp_element (Some path) None = "tmp:-1C "
  /\ emitted (loop_body text_setup refreshed_state
                {| poll_ret := 0; revents0 := 0; revents1 := 0; revents2 := 0;
                   udev_monitor_receive_device := None;
                   signal_read_ok := true;
                   snd_mixer_handle_events := 0;
                   mixer_callbacks := [];
                   status := no_thermal_status;
                   dwlbSend := 0 |})
     = [StatusLine "tmp:-1C pwr:12W bat:50% 30-10-2026 12:00"].
Proof. repeat split. Qed.

(** ** Network elements without the nl80211 family *)

Lemma getStatusInfo_no_family (cfg : Setup) (e : status_env)
    (nlData : si_nlData) (wStats : si_wStats) :
  id nlData < 0 ->
  getStatusInfo e (Some (sysfsThermalPath cfg)) nlData wStats
  = Some (status_line_no_net cfg e, nlData, wStats).
Proof.
  intros H. unfold getStatusInfo.
  by assert ((0 <=? id nlData) = false) as -> by lia.
Qed.

Lemma loop_body_no_family (cfg : Setup) (st : State) (e : Env) :
  id (nlData st) < 0 ->
  (forall line, StatusLine line ∈ emitted (loop_body cfg st e) ->
                line = status_line_no_net cfg (status e))
  /\ (forall st', next (loop_body cfg st e) = Continue st' -> id (nlData st') < 0).
Proof.
  intros H. unfold loop_body, refresh.
  rewrite (getStatusInfo_no_family cfg (status e) _ _ H).
  split.
  - cases; intros line Hin;
      repeat (apply elem_of_cons in Hin as [Hin|Hin]; [by inversion Hin|]);
      by apply elem_of_nil in Hin.
  - cases; intros st' [= <-]; exact H.
Qed.

Lemma run_no_family (cfg : Setup) (envs : list Env) :
  forall st, id (nlData st) < 0 ->
  forall k it e line,
    run cfg st envs !! k = Some it -> envs !! k = Some e ->
    StatusLine line ∈ emitted it ->
    line = status_line_no_net cfg (status e).
Proof.
  induction envs as [|e0 envs IH]; intros st Hid k it e line Hit He Hin; [done|].
  destruct (loop_body_no_family cfg st e0 Hid) as [Hline Hnext].
  simpl in Hit. destruct k as [|k]; simpl in *.
  - injection Hit as <-. injection He as <-. by apply Hline.
  - destruct (next (loop_body cfg st e0)) as [st'| | |] eqn:Hn; try done.
    eapply (IH st'); eauto.
Qed.

(** C10.  When [init_nl80211] leaves [nlData.id] negative, every line
    that any later iteration of the loop hands to the sink from the
    periodic refresh is made of the temperature, power, battery and
    clock elements only: it has no network element, whatever
    interfaces (ethernet, bridge or wireless) the host has. *)
Theorem no_family_no_network (cfg : Setup) (nl_init : nl_init_env)
    (stack_slots : list string) (stack_flag : Z) (stack_wStats : si_wStats)
    (envs : list Env) (k : nat) (it : iteration) (e : Env) (line : string) :
  (init_nl80211 nl_init).2 < 0 ->
  run cfg (initial_state nl_init stack_slots stack_flag stack_wStats) envs !! k
  = Some it ->
  envs !! k = Some e ->
  StatusLine line ∈ emitted it ->
  line = status_line_no_net cfg (status e).
Proof.
  intros Hid. by apply run_no_family.
Qed.

Lemma no_family_no_network_witness :
  (init_nl80211 nl_init_no_family).2 < 0
  /\ "tmp:45C pwr:12W bat:50% 30-10-2026 12:00"
     = status_line_no_net text_setup ethernet_status.
Proof.
  split; [reflexivity|].
  apply (no_family_no_network text_setup nl_init_no_family empty_slots 0
           {| ifindex := 0; signal := 0 |}
           [ {| poll_ret := 0; revents0 := 0; revents1 := 0; revents2 := 0;
                udev_monitor_receive_device := None;
                signal_read_ok := true;
                snd_mixer_handle_events := 0;
                mixer_callbacks := [];
                status := ethernet_status;
                dwlbSend := 0 |} ]
           0%nat _ _ _ eq_refl eq_refl eq_refl).
  constructor.
Defined.

(** With the family resolved, the same host shows its ethernet link. *)
Lemma family_resolved_shows_ethernet :
  getStatusInfo ethernet_status (Some (sysfsThermalPath text_setup))
    {| id := 28; wlanStatsResult := 0 |} {| ifindex := 0; signal := 0 |}
  = Some ("e2:1000M tmp:45C pwr:12W bat:50% 30-10-2026 12:00",
          {| id := 28; wlanStatsResult := 0 |}, {| ifindex := 0; signal := 0 |}).
Proof. reflexivity. Qed.

(** ** Fragments written by the dispatch *)

Lemma fallback_fragment (name : string) :
  (String.length name <= 18)%nat ->
  snprintf MX_ELEMENT_CHARS ("foo" +:+ ": " +:+ name +:+ ": " +:+ "change" +:+ " ")
  = "foo: " +:+ name +:+ ": change" +:+ str_take (18 - String.length name) " ".
Proof.
  intros Hlen. unfold snprintf.
  change (Z.to_nat (MX_ELEMENT_CHARS - 1)) with (5 + 26)%nat.
  change ("foo" +:+ ": " +:+ name +:+ ": " +:+ "change" +:+ " ")
    with ("foo: " +:+ (name +:+ (": change" +:+ " "))).
  rewrite (str_take_app (5 + 26) "foo: ").
  change (5 + 26 <=? String.length "foo: ")%nat with false.
  change (5 + 26 - String.length "foo: ")%nat with 26%nat.
  rewrite (str_take_app 26 name).
  assert ((26 <=? String.length name)%nat = false) as -> by (apply Nat.leb_gt; lia).
  rewrite (str_take_app (26 - String.length name) ": change").
  change (String.length ": change") with 8%nat.
  destruct (Nat.leb_spec (26 - String.length name) 8) as [Hle|Hgt].
  - assert (String.length name = 18%nat) as -> by lia. reflexivity.
  - by replace (26 - String.length name - 8)%nat
      with (18 - String.length name)%nat by lia.
Qed.

(** * Further properties of the code *)

(** ** The slot array stays well formed *)

Lemma snprintf_short (s : string) : short (snprintf MX_ELEMENT_CHARS s).
Proof.
  unfold short. pose proof (snprintf_bound MX_ELEMENT_CHARS s) as H.
  unfold MX_ELEMENT_CHARS in *. lia.
Qed.

Lemma backlightStatus_short : handler_short backlightStatus.
Proof.
  intros dev r s. unfold backlightStatus.
  cases; intros [= <- <-]; apply snprintf_short.
Qed.

Lemma rfKillStatus_short : handler_short rfKillStatus.
Proof.
  intros dev r s. unfold rfKillStatus.
  cases; intros [= <- <-]; apply snprintf_short.
Qed.

Lemma powerStatus_short : handler_short powerStatus.
Proof.
  intros dev r s. unfold powerStatus.
  cases; intros [= <- <-]; try apply snprintf_short. by compute.
Qed.

Lemma udevActions_short : Forall (fun p => handler_short p.2) udevActions.
Proof.
  unfold udevActions.
  apply Forall_cons; split; [exact backlightStatus_short|].
  apply Forall_cons; split; [exact rfKillStatus_short|].
  apply Forall_cons; split; [exact powerStatus_short|].
  apply Forall_nil_2.
Qed.

Lemma dispatch_short (tbl : list (string * handler)) :
  Forall (fun p => handler_short p.2) tbl ->
  forall i dev udevSubsystem ret ws r ws',
    Forall (fun w => short w.2) ws ->
    dispatch tbl i dev udevSubsystem ret ws = Some (r, ws') ->
    Forall (fun w => short w.2) ws'.
Proof.
  induction 1 as [|[name f] tbl Hf _ IH]; intros i dev sub ret ws r ws' Hws; simpl.
  - by intros [= _ <-].
  - simpl in Hf. destruct (String.eqb name sub); [|by apply IH].
    destruct (f dev) as [[r0 [s|]]|] eqn:Hcall; [| |discriminate].
    + apply IH. apply Forall_app. split; [done|].
      apply Forall_cons. split; [|apply Forall_nil_2]. simpl. by eapply Hf.
    + by apply IH.
Qed.

Lemma udevStatus_writes_short (dev : udev_device) (udevSubsystem : string)
    (ws : list slot_write) :
  udevStatus_writes dev udevSubsystem = Some ws -> Forall (fun w => short w.2) ws.
Proof.
  unfold udevStatus_writes.
  change (take (Z.to_nat MX_NUMBER_ELEMENTS) udevActions) with udevActions.
  assert (Hfb : forall ws0 : list slot_write, Forall (fun w => short w.2) ws0 ->
            Forall (fun w => short w.2)
              (ws0 ++ [(Z.to_nat (MX_NUMBER_ELEMENTS - 1),
                        snprintf MX_ELEMENT_CHARS
                          (udevSubsystem +:+ ": " +:+ sysname dev +:+ ": "
                           +:+ action dev +:+ " "))])).
  { intros ws0 H0. apply Forall_app. split; [done|].
    apply Forall_cons. split; [apply snprintf_short | apply Forall_nil_2]. }
  destruct (String.eqb "change" (action dev)).
  - destruct (dispatch udevActions 0 dev udevSubsystem (-1) []) as [[r ws0]|] eqn:Hd;
      [|discriminate].
    apply (dispatch_short _ udevActions_short) in Hd; [|apply Forall_nil_2].
    destruct (r =? -1); intros [= <-]; auto.
  - simpl. intros [= <-]. apply (Hfb []). apply Forall_nil_2.
Qed.

Lemma apply_writes_short (ws : list slot_write) :
  Forall (fun w => short w.2) ws ->
  forall slots, Forall short slots -> Forall short (apply_writes slots ws).
Proof.
  unfold apply_writes.
  induction 1 as [|w ws Hw _ IH]; intros slots Hs; simpl; [done|].
  apply IH. by apply Forall_insert.
Qed.

Lemma compose_all_slots (sBuf : string) (slots : list string) :
  slots_ok slots -> compose sBuf slots = sBuf +:+ cat slots.
Proof.
  intros [Hlen Hshort]. unfold compose.
  rewrite take_ge by (change (Z.to_nat MX_NUMBER_ELEMENTS) with 6%nat;
                      change MX_NUMBER_ELEMENTS with 6 in Hlen; lia).
  apply compose_loop_all; [done|].
  change MX_NUMBER_ELEMENTS with 6 in Hlen.
  unfold MX_STATUS_CHARS, MX_ELEMENT_CHARS. lia.
Qed.

Lemma udevStatus_slots_ok (sBuf line : string) (slots slots' : list string)
    (dev : udev_device) (ret : Z) :
  slots_ok slots ->
  udevStatus sBuf slots dev = Some (ret, slots', line) ->
  slots_ok slots'
  /\ (subsystem dev <> None -> ret = 0 /\ line = sBuf +:+ cat slots')
  /\ (subsystem dev = None -> ret = -1 /\ slots' = slots /\ line = sBuf).
Proof.
  intros Hok. unfold udevStatus. destruct (subsystem dev) as [sub|].
  - destruct (udevStatus_writes dev sub) as [ws|] eqn:Hws; [|discriminate].
    intros [= <- Hs <-].
    assert (Hok' : slots_ok (apply_writes slots ws)).
    { destruct Hok as [Hlen Hshort]. split.
      - by rewrite apply_writes_length.
      - apply apply_writes_short; [|done]. by apply (udevStatus_writes_short dev sub). }
    rewrite <- Hs. split; [done|]. split; [|done].
    intros _. split; [done|]. by apply compose_all_slots.
  - intros [= <- <- <-]. split; [done|]. split; [done|]. done.
Qed.

Lemma slots_ok_total (slots : list string) :
  slots_ok slots -> strlen (cat slots) <= 186.
Proof.
  intros [Hlen Hshort]. pose proof (short_total _ Hshort) as H.
  change MX_NUMBER_ELEMENTS with 6 in Hlen. unfold MX_ELEMENT_CHARS in H. lia.
Qed.

Lemma empty_slots_ok : slots_ok empty_slots.
Proof. split; [reflexivity|]. repeat constructor. Qed.

(** X1.  On a well-formed slot array, [udevStatus] for a device with a
    subsystem leaves the array well formed and composes the line from
    all the slots, in order, after what [sBuf] held; the slots together
    take at most 186 characters. *)
Theorem udevStatus_line_is_all_slots (sBuf line : string) (slots slots' : list string)
    (dev : udev_device) (ret : Z) :
  slots_ok slots ->
  subsystem dev <> None ->
  udevStatus sBuf slots dev = Some (ret, slots', line) ->
  slots_ok slots' /\ line = sBuf +:+ cat slots' /\ strlen (cat slots') <= 186.
Proof.
  intros Hok Hsub Hu.
  destruct (udevStatus_slots_ok _ _ _ _ _ _ Hok Hu) as (Hok' & Hline & _).
  destruct (Hline Hsub) as [_ ->].
  split; [done|]. split; [done|]. by apply slots_ok_total.
Qed.

Lemma udevStatus_line_is_all_slots_witness :
  slots_ok ["LCD: 50% "; ""; ""; ""; ""; ""]
  /\ slots_ok ["LCD: 50% "; "wlan [rfkill index:0]: On "; ""; ""; ""; ""]
  /\ "LCD: 50% wlan [rfkill index:0]: On "
     = "" +:+ cat ["LCD: 50% "; "wlan [rfkill index:0]: On "; ""; ""; ""; ""].
Proof.
  assert (Hok : slots_ok ["LCD: 50% "; ""; ""; ""; ""; ""]).
  { split; [reflexivity|]. repeat constructor. }
  split; [exact Hok|].
  destruct (udevStatus_line_is_all_slots ""
              "LCD: 50% wlan [rfkill index:0]: On "
              ["LCD: 50% "; ""; ""; ""; ""; ""]
              ["LCD: 50% "; "wlan [rfkill index:0]: On "; ""; ""; ""; ""]
              rfkill_dev 0 Hok) as (Hok' & Hline & _);
    [discriminate | reflexivity |].
  split; assumption.
Defined.

Lemma handle_events_slots_ok (st : State) (e : Env) (slots : list string)
    (sBuf : string) (ds : list diag) :
  slots_ok (udevDisplayInfo st) ->
  handle_events st e = EvLine slots sBuf ds ->
  slots_ok slots /\ strlen sBuf <= MX_STATUS_CHARS - 1.
Proof.
  intros Hok. unfold handle_events.
  assert (Hempty : strlen "" <= MX_STATUS_CHARS - 1) by (by compute).
  assert (Hsn : forall v, strlen (snprintf MX_STATUS_CHARS v) <= MX_STATUS_CHARS - 1)
    by (intros v; by apply snprintf_bound).
  destruct (poll_error e); [discriminate|].
  destruct (has (revents0 e) POLLIN).
  - destruct (udev_monitor_receive_device e) as [dev|].
    + destruct (udevStatus "" (udevDisplayInfo st) dev) as [[[r sl] sb]|] eqn:Hu;
        [|discriminate].
      destruct (udevStatus_slots_ok _ _ _ _ _ _ Hok Hu) as (Hok' & Hsome & Hnone).
      assert (Hsb : strlen sb <= MX_STATUS_CHARS - 1).
      { destruct (subsystem dev) as [sub|] eqn:Hs.
        - destruct Hsome as [_ ->]; [done|]. rewrite str_app_nil_l.
          pose proof (slots_ok_total _ Hok'). unfold MX_STATUS_CHARS. lia.
        - destruct Hnone as (_ & _ & ->); done. }
      cases; intros [= <- <- _] || discriminate; auto.
    + cases; intros [= <- <- _] || discriminate; auto.
  - cases; intros [= <- <- _] || discriminate; auto.
Qed.

Lemma loop_body_slots_ok (cfg : Setup) (st : State) (e : Env) :
  slots_ok (udevDisplayInfo st) ->
  (forall em, em ∈ emitted (loop_body cfg st e) ->
              strlen (line_of em) <= MX_STATUS_CHARS - 1)
  /\ (forall st', next (loop_body cfg st e) = Continue st' ->
                  slots_ok (udevDisplayInfo st')).
Proof.
  intros Hok.
  assert (Hst : forall net tmp pwr bat tml,
             strlen (status_line net tmp pwr bat tml) <= MX_STATUS_CHARS - 1).
  { intros. unfold status_line. by apply snprintf_bound. }
  assert (Hgs : forall line nl w,
             getStatusInfo (status e) (Some (sysfsThermalPath cfg))
                           (nlData st) (wStats st) = Some (line, nl, w) ->
             strlen line <= MX_STATUS_CHARS - 1).
  { unfold getStatusInfo. intros line nl w.
    destruct (if 0 <=? id (nlData st) then _ else _) as [[[n nl1] w1]|]; [|discriminate].
    intros [= <- _ _]. apply Hst. }
  assert (Hclear : forall slots, slots_ok slots -> slots_ok (clear_slots slots)).
  { intros slots [Hl _]. rewrite clear_slots_all by done. apply empty_slots_ok. }
  unfold loop_body, refresh.
  destruct (poll_ret e <? 0).
  { split; [intros em Hin; by apply elem_of_nil in Hin | discriminate]. }
  destruct (0 <? poll_ret e).
  - destruct (handle_events st e) as [|ds|slots sBuf ds] eqn:Hev.
    + split; [intros em Hin; by apply elem_of_nil in Hin | discriminate].
    + split; [intros em Hin; by apply elem_of_nil in Hin | discriminate].
    + destruct (handle_events_slots_ok _ _ _ _ _ Hok Hev) as [Hok' Hlen].
      destruct (negb (String.eqb sBuf "")).
      * split.
        -- intros em Hin. apply list_elem_of_singleton in Hin as ->. exact Hlen.
        -- simpl. destruct (sbOut _ _ =? -1); [discriminate|]. by intros st' [= <-].
      * destruct (getStatusInfo _ _ _ _) as [[[line nl] w]|] eqn:Hg.
        -- split.
           ++ intros em Hin. apply list_elem_of_singleton in Hin as ->.
              by apply (Hgs line nl w).
           ++ simpl. destruct (sbOut _ _ =? -1); [discriminate|].
              intros st' [= <-]. by apply Hclear.
        -- split; [intros em Hin; by apply elem_of_nil in Hin | discriminate].
  - destruct (getStatusInfo _ _ _ _) as [[[line nl] w]|] eqn:Hg.
    + split.
      * intros em Hin. apply list_elem_of_singleton in Hin as ->.
        by apply (Hgs line nl w).
      * simpl. destruct (sbOut _ _ =? -1); [discriminate|].
        intros st' [= <-]. by apply Hclear.
    + split; [intros em Hin; by apply elem_of_nil in Hin | discriminate].
Qed.

(** X2.  From a state whose slot array is well formed (as after any
    refresh), every line that any iteration of the loop hands to
    [sbOut] has at most [MX_STATUS_CHARS - 1] characters, and every
    state the loop continues with has a well-formed slot array again. *)
Theorem emitted_lines_fit (cfg : Setup) (envs : list Env) (st : State)
    (it : iteration) :
  slots_ok (udevDisplayInfo st) ->
  it ∈ run cfg st envs ->
  (forall em, em ∈ emitted it -> strlen (line_of em) <= MX_STATUS_CHARS - 1)
  /\ (forall st', next it = Continue st' -> slots_ok (udevDisplayInfo st')).
Proof.
  revert st. induction envs as [|e envs IH]; intros st Hok Hin; simpl in Hin.
  - by apply elem_of_nil in Hin.
  - destruct (loop_body_slots_ok cfg st e Hok) as [Hem Hnext].
    apply elem_of_cons in Hin as [-> | Hin]; [by split|].
    destruct (next (loop_body cfg st e)) as [st'| | |] eqn:Hn;
      try (by apply elem_of_nil in Hin).
    apply (IH st'); [by apply Hnext | done].
Qed.

Lemma emitted_lines_fit_witness :
  slots_ok (udevDisplayInfo refreshed_state)
  /\ strlen "LCD: 50% wlan [rfkill index:0]: On " <= MX_STATUS_CHARS - 1.
Proof.
  split; [exact empty_slots_ok|].
  assert (Hin : loop_body text_setup
                  {| timeout := NOTIFY_TIMEOUT;
                     udevDisplayInfo := ["LCD: 50% "; ""; ""; ""; ""; ""];
                     nlData := {| id := 28; wlanStatsResult := 0 |};
                     wStats := {| ifindex := 0; signal := 0 |} |}
                  (env_udev (Some rfkill_dev))
                ∈ run text_setup refreshed_state
                    [env_udev (Some backlight_dev); env_udev (Some rfkill_dev)]).
  { simpl. apply elem_of_cons. right. apply elem_of_cons. by left. }
  destruct (emitted_lines_fit text_setup _ refreshed_state _ empty_slots_ok Hin)
    as [Hem _].
  apply (Hem (EventLine "LCD: 50% wlan [rfkill index:0]: On ")).
  apply list_elem_of_singleton. reflexivity.
Defined.

(** ** What the dispatch stores *)

(** The fallback text of [udevStatus]. *)
Lemma udevStatus_no_handler (sBuf : string) (slots : list string) (dev : udev_device)
    (udevSubsystem : string) :
  subsystem dev = Some udevSubsystem ->
  udevStatus_writes dev udevSubsystem
  = Some [(Z.to_nat (MX_NUMBER_ELEMENTS - 1),
           snprintf MX_ELEMENT_CHARS
             (udevSubsystem +:+ ": " +:+ sysname dev +:+ ": " +:+ action dev +:+ " "))] ->
  udevStatus sBuf slots dev
  = Some (0,
          <[Z.to_nat (MX_NUMBER_ELEMENTS - 1) :=
              snprintf MX_ELEMENT_CHARS
                (udevSubsystem +:+ ": " +:+ sysname dev +:+ ": " +:+ action dev +:+ " ")]>
            slots,
          compose sBuf
            (<[Z.to_nat (MX_NUMBER_ELEMENTS - 1) :=
                 snprintf MX_ELEMENT_CHARS
                   (udevSubsystem +:+ ": " +:+ sysname dev +:+ ": " +:+ action dev
                    +:+ " ")]> slots)).
Proof. intros Hsub Hws. unfold udevStatus. by rewrite Hsub, Hws. Qed.

(** X3.  For a record whose action is not "change", or whose subsystem
    is not in [udevActions], [udevStatus] calls no handler (so no sysfs
    attribute is read) and stores exactly the generic text
    "subsystem: name: action " (cut to the element size) in the last
    slot. *)
Theorem udevStatus_fallback (sBuf : string) (slots : list string) (dev : udev_device)
    (udevSubsystem : string) :
  subsystem dev = Some udevSubsystem ->
  action dev <> "change" \/ udevSubsystem ∉ udevActions.*1 ->
  udevStatus sBuf slots dev
  = Some (0,
          <[Z.to_nat (MX_NUMBER_ELEMENTS - 1) :=
              snprintf MX_ELEMENT_CHARS
                (udevSubsystem +:+ ": " +:+ sysname dev +:+ ": " +:+ action dev +:+ " ")]>
            slots,
          compose sBuf
            (<[Z.to_nat (MX_NUMBER_ELEMENTS - 1) :=
                 snprintf MX_ELEMENT_CHARS
                   (udevSubsystem +:+ ": " +:+ sysname dev +:+ ": " +:+ action dev
                    +:+ " ")]> slots)).
Proof.
  intros Hsub Hcase. apply udevStatus_no_handler; [done|].
  unfold udevStatus_writes.
  change (take (Z.to_nat MX_NUMBER_ELEMENTS) udevActions) with udevActions.
  destruct (String.eqb "change" (action dev)) eqn:Hact; [|reflexivity].
  apply String.eqb_eq in Hact.
  destruct Hcase as [Hne | Hnot]; [congruence|].
  by rewrite (dispatch_no_match _ _ Hnot).
Qed.

Lemma udevStatus_fallback_witness :
  udevStatus "" empty_slots backlight_add_dev
  = Some (0, [""; ""; ""; ""; ""; "backlight: intel_backlight: add"],
          "backlight: intel_backlight: add").
Proof.
  apply (udevStatus_fallback "" empty_slots backlight_add_dev "backlight").
  - reflexivity.
  - left. discriminate.
Defined.

(** ** Decimal text and [atol] *)

Lemma atol_digits_acc (d : Decimal.uint) (acc : positive) :
  atol_digits (NilEmpty.string_of_uint d) (Zpos acc) = Zpos (Pos.of_uint_acc d acc).
Proof.
  revert acc. induction d; intros acc; simpl; try reflexivity;
    unfold digit_val; simpl; rewrite <- IHd; f_equal; lia.
Qed.

Lemma atol_digits_uint (d : Decimal.uint) :
  atol_digits (NilEmpty.string_of_uint d) 0 = Z.of_uint d.
Proof.
  unfold Z.of_uint.
  induction d; simpl; try reflexivity; unfold digit_val; simpl;
    try apply atol_digits_acc. exact IHd.
Qed.

Lemma atol_string_of_uint (d : Decimal.uint) :
  atol (NilZero.string_of_uint d) = Z.of_uint d
  /\ atol (String "-"%char (NilZero.string_of_uint d)) = - Z.of_uint d.
Proof.
  pose proof (atol_digits_uint d) as H.
  destruct d; split; try reflexivity;
    unfold atol; simpl in H |- *; unfold digit_val in H |- *; simpl in H |- *;
    rewrite H; reflexivity.
Qed.

Lemma atol_fmt_int (z : Z) : atol (fmt_int z) = z.
Proof.
  unfold fmt_int. rewrite <- (DecimalZ.of_to z) at 2.
  destruct (Z.to_int z) as [d|d]; simpl NilZero.string_of_int; simpl Z.of_int.
  - apply atol_string_of_uint.
  - apply atol_string_of_uint.
Qed.

(** ** The station query: waiting and the stored value *)

Lemma recv_loop_blocks (batches : list (list nl_msg)) :
  forall flag w,
    0 < flag ->
    Forall (fun b => MsgDone ∉ dispatched b) batches ->
    recv_loop batches flag w = None.
Proof.
  induction batches as [|b batches IH]; intros flag w Hflag Hall; simpl.
  - by assert ((0 <? flag) = true) as -> by lia.
  - apply Forall_cons in Hall as [Hb Hall].
    assert ((0 <? flag) = true) as -> by lia.
    pose proof (nl_recvmsgs_flag_keep b flag w Hb) as Hf.
    destruct (nl_recvmsgs b flag w) as [f w']. simpl in Hf. subst f.
    by apply IH.
Qed.

(** X6.  [getWifiStatus] has no way out of its receive loop other than
    [finish_handler]: as long as no receive call dispatches the end of
    the dump (a batch that stops at an acknowledgement before it
    included), the call does not return, however many messages
    arrive. *)
Theorem getWifiStatus_waits_for_done (batches : list (list nl_msg))
    (nlData : si_nlData) (wStats : si_wStats) :
  0 <= ifindex wStats ->
  Forall (fun b => MsgDone ∉ dispatched b) batches ->
  getWifiStatus true batches nlData wStats = None.
Proof.
  intros Hidx Hall. unfold getWifiStatus.
  assert ((ifindex wStats <? 0) = false) as -> by lia. simpl.
  by rewrite (recv_loop_blocks batches 1 wStats) by (done || lia).
Qed.

Lemma getWifiStatus_waits_for_done_witness :
  getWifiStatus true
    [[MsgValid (Some (StaAttrs (Some 196)))]; [MsgAck; MsgDone]]
    {| id := 28; wlanStatsResult := 0 |} {| ifindex := 3; signal := 0 |}
  = None.
Proof.
  apply getWifiStatus_waits_for_done.
  - simpl. lia.
  - apply (bool_decide_unpack _). by vm_compute.
Defined.

Lemma int8_of_u8_range (u : Z) :
  -128 <= int8_of_u8 u <= 127 /\ (int8_of_u8 u) mod 256 = u mod 256.
Proof.
  unfold int8_of_u8. pose proof (Z.mod_pos_bound u 256 ltac:(lia)) as Hb.
  destruct (u mod 256 <? 128) eqn:Hlt.
  - apply Z.ltb_lt in Hlt. split; [lia|]. apply Z.mod_mod. lia.
  - apply Z.ltb_ge in Hlt. split; [lia|].
    replace (u mod 256 - 256) with (u mod 256 + (-1) * 256) by lia.
    rewrite Z.mod_add by lia. apply Z.mod_mod. lia.
Qed.

(** X7.  Whatever byte the signal attribute carries, the value
    [getWifiStats_nl_cb] stores is that byte read as a signed 8-bit
    number: it lies in -128..127 and is congruent to the byte modulo
    256; the interface index is not touched and the callback asks libnl
    to go on with the next message. *)
Theorem getWifiStats_nl_cb_signed_byte (u : Z) (arg : si_wStats) :
  let r := getWifiStats_nl_cb (Some (StaAttrs (Some u))) arg in
  -128 <= signal r.1 <= 127
  /\ (signal r.1) mod 256 = u mod 256
  /\ ifindex r.1 = ifindex arg
  /\ r.2 = NL_SKIP.
Proof.
  simpl. pose proof (int8_of_u8_range u) as [Hr Hm]. auto.
Qed.

(** X8.  [init_nl80211] returns the family id (not negative) exactly
    when the socket allocation, the connect, the family resolution and
    the callback allocation all succeed, and -1 otherwise.  [nlData.id]
    is negative exactly when one of the first three steps fails: a
    failed callback allocation returns -1 but leaves the resolved id in
    [nlData.id]. *)
Theorem init_nl80211_result (e : nl_init_env) :
  (0 <= (init_nl80211 e).1 <->
   socket_alloc_ok e = true /\ genl_connect_ok e = true
   /\ 0 <= genl_ctrl_resolve e /\ cb_alloc_ok e = true)
  /\ ((init_nl80211 e).1 < 0 -> (init_nl80211 e).1 = -1)
  /\ (0 <= (init_nl80211 e).1 -> (init_nl80211 e).2 = (init_nl80211 e).1)
  /\ ((init_nl80211 e).2 < 0 <->
      socket_alloc_ok e = false \/ genl_connect_ok e = false
      \/ genl_ctrl_resolve e < 0).
Proof.
  unfold init_nl80211.
  destruct (socket_alloc_ok e), (genl_connect_ok e), (cb_alloc_ok e);
    destruct (genl_ctrl_resolve e <? 0) eqn:Hr; simpl;
    try apply Z.ltb_lt in Hr; try apply Z.ltb_ge in Hr;
    repeat split; intros; try lia; try tauto; intuition (try lia; try discriminate).
Qed.

Lemma init_nl80211_result_witness :
  (init_nl80211 {| socket_alloc_ok := true; genl_connect_ok := true;
                   genl_ctrl_resolve := 28; cb_alloc_ok := false |}).1 = -1
  /\ (init_nl80211 {| socket_alloc_ok := true; genl_connect_ok := true;
                      genl_ctrl_resolve := 28; cb_alloc_ok := false |}).2 = 28.
Proof.
  destruct (init_nl80211_result
              {| socket_alloc_ok := true; genl_connect_ok := true;
                 genl_ctrl_resolve := 28; cb_alloc_ok := false |}) as (_ & Hneg & _).
  split; [apply Hneg; reflexivity | reflexivity].
Defined.

(** ** The network element *)

Lemma strlen_strncat (dest src : string) (n : Z) :
  strlen (strncat dest src n) = strlen dest + Z.min (Z.max n 0) (strlen src).
Proof.
  unfold strncat. rewrite strlen_app. unfold strlen. rewrite str_take_length. lia.
Qed.

Lemma getWifiStatus_id (alloc_ok : bool) (batches : list (list nl_msg))
    (nlData nl' : si_nlData) (wStats w' : si_wStats) (ret : Z) :
  getWifiStatus alloc_ok batches nlData wStats = Some (ret, nl', w') ->
  id nl' = id nlData.
Proof.
  unfold getWifiStatus. cases; intros [= _ <- _]; reflexivity.
Qed.

Lemma getNetwork_loop_bound (e : net_env) (l : list ifaddrs) :
  forall i names displayStatus displayText nlData wStats text' nl' w',
    getNetwork_loop e l i names displayStatus displayText nlData wStats
    = Some (text', nl', w') ->
    strlen text' <= strlen displayText + Z.max i 0 /\ id nl' = id nlData.
Proof.
  induction l as [|ifa l IH];
    intros i names ds text nl w text' nl' w'; simpl.
  - intros [= <- <- _]. lia.
  - destruct (0 <? i) eqn:Hi; simpl; [|intros [= <- <- _]; lia].
    apply Z.ltb_lt in Hi.
    assert (Hskip : getNetwork_loop e l i names ds text nl w = Some (text', nl', w') ->
                    strlen text' <= strlen text + Z.max i 0 /\ id nl' = id nl)
      by apply IH.
    destruct (ifa_family ifa) as [fam|]; [|exact Hskip].
    destruct (flag_set (ifa_flags ifa) IFF_LOOPBACK
              || flag_set (ifa_flags ifa) IFF_POINTOPOINT); [exact Hskip|].
    destruct (negb ((fam =? AF_INET) || (fam =? AF_INET6))); [exact Hskip|].
    destruct (negb (flag_set (ifa_flags ifa) IFF_RUNNING)); [exact Hskip|].
    destruct (existsb (String.eqb (ifa_name ifa)) names); [exact Hskip|].
    clear Hskip.
    match goal with
    | |- match ?wifi with _ => _ end = _ -> _ =>
        destruct wifi as [[[ds2 nl1] w1]|] eqn:Hwifi; [|discriminate]
    end.
    assert (Hid : id nl1 = id nl).
    { revert Hwifi. cases; intros [= _ <- _]; try reflexivity.
      by eapply getWifiStatus_id. }
    pose proof (strlen_strncat text ds2 i) as Hcat.
    pose proof (strlen_nonneg ds2) as Hds.
    destruct (i - strlen ds2 <? 0) eqn:Hneg.
    + apply Z.ltb_lt in Hneg. intros [= <- <- _]. split; [lia | done].
    + apply Z.ltb_ge in Hneg. intros Hrec. apply IH in Hrec as [Hlen Hid'].
      split; [lia | congruence].
Qed.

(** X9.  The network element [getNetwork] builds in an empty buffer
    never exceeds [MX_ELEMENT_CHARS - 1] characters, whatever the
    interfaces are and whatever [displayStatus] holds, and the call
    leaves the family id as it was. *)
Theorem getNetwork_fits (e : net_env) (nlData nl' : si_nlData)
    (wStats w' : si_wStats) (net : string) :
  getNetwork e "" nlData wStats = Some (net, nl', w') ->
  strlen net <= MX_ELEMENT_CHARS - 1 /\ id nl' = id nlData.
Proof.
  unfold getNetwork. destruct (getifaddrs e) as [l|].
  - intros H. apply getNetwork_loop_bound in H as [Hlen Hid].
    split; [|done]. unfold MX_ELEMENT_CHARS in *. unfold strlen in Hlen at 2.
    simpl in Hlen. lia.
  - intros [= <- <- _]. split; [by compute | done].
Qed.

Lemma getNetwork_fits_witness :
  strlen "e2:1000M " <= MX_ELEMENT_CHARS - 1.
Proof.
  apply (getNetwork_fits one_ethernet {| id := 28; wlanStatsResult := 0 |}
           {| id := 28; wlanStatsResult := 0 |} {| ifindex := 0; signal := 0 |}
           {| ifindex := 0; signal := 0 |} "e2:1000M " eq_refl).
Defined.

Lemma getNetwork_loop_known (e : net_env) (ifa : ifaddrs) (rest : list ifaddrs)
    (i : Z) (names : list string) (displayStatus displayText : string)
    (nlData : si_nlData) (wStats : si_wStats) :
  existsb (String.eqb (ifa_name ifa)) names = true ->
  getNetwork_loop e (ifa :: rest) i names displayStatus displayText nlData wStats
  = getNetwork_loop e rest i names displayStatus displayText nlData wStats.
Proof.
  intros Hin. simpl. rewrite Hin.
  destruct (0 <? i) eqn:Hi; simpl.
  - cases; reflexivity.
  - destruct rest; simpl; [reflexivity|]. by rewrite Hi.
Qed.

(** ** The periodic line *)

Lemma tmp_element_short (path : option string) (file : option Z) :
  short (tmp_element path file).
Proof. unfold tmp_element. destruct path; [apply snprintf_short | by compute]. Qed.

Lemma pwr_element_short (powerNow : Z) : short (pwr_element powerNow).
Proof. unfold pwr_element. destruct (0 <? powerNow); [apply snprintf_short | by compute]. Qed.

Lemma bat_element_short (batCapacityNow : Z) : short (bat_element batCapacityNow).
Proof. unfold bat_element. cases; try apply snprintf_short. by compute. Qed.

Lemma getTime_short (c : option (option string)) : short (getTime c).
Proof.
  unfold short, getTime, strlen. rewrite str_take_length.
  change (Z.to_nat (MX_ELEMENT_CHARS - 1)) with 31%nat. unfold MX_ELEMENT_CHARS. lia.
Qed.

(** X11.  The line of [getStatusInfo] is never cut: it is the network
    element (empty when the family id is negative), then the
    temperature, power, battery and clock elements, each whole and in
    this order; it has at most 155 characters; and the call leaves the
    family id as it was. *)
Theorem getStatusInfo_whole_elements (e : status_env) (path : option string)
    (nlData nl' : si_nlData) (wStats w' : si_wStats) (line : string) :
  getStatusInfo e path nlData wStats = Some (line, nl', w') ->
  exists network,
    line = network
           +:+ tmp_element path (sys_temp e)
           +:+ pwr_element (Z.quot (getSysInfo (sys_power_now e)) 1000000)
           +:+ bat_element (getSysInfo (sys_capacity e))
           +:+ getTime (clock e)
    /\ strlen network <= MX_ELEMENT_CHARS - 1
    /\ (id nlData < 0 -> network = "")
    /\ strlen line <= 155
    /\ id nl' = id nlData.
Proof.
  unfold getStatusInfo.
  destruct (0 <=? id nlData) eqn:Hid.
  - destruct (getNetwork (net e) "" nlData wStats) as [[[network nl1] w1]|] eqn:Hnet;
      [|discriminate].
    intros [= <- <- _]. exists network.
    (* the bound on the network element comes from the loop of getNetwork *)
    assert (Hn : strlen network <= MX_ELEMENT_CHARS - 1 /\ id nl1 = id nlData).
    { revert Hnet. unfold getNetwork. destruct (getifaddrs (net e)) as [l|].
      - intros H. apply getNetwork_loop_bound in H as [Hlen Hid'].
        split; [|done]. unfold MX_ELEMENT_CHARS in *. unfold strlen in Hlen at 2.
        simpl in Hlen. lia.
      - intros [= <- <- _]. split; [by compute | done]. }
    destruct Hn as [Hn Hid'].
    pose proof (tmp_element_short path (sys_temp e)) as Ht.
    pose proof (pwr_element_short (Z.quot (getSysInfo (sys_power_now e)) 1000000)) as Hp.
    pose proof (bat_element_short (getSysInfo (sys_capacity e))) as Hb.
    pose proof (getTime_short (clock e)) as Hc.
    unfold short, MX_ELEMENT_CHARS in *.
    assert (Hfit : status_line network (tmp_element path (sys_temp e))
                     (pwr_element (Z.quot (getSysInfo (sys_power_now e)) 1000000))
                     (bat_element (getSysInfo (sys_capacity e))) (getTime (clock e))
                   = network +:+ tmp_element path (sys_temp e)
                     +:+ pwr_element (Z.quot (getSysInfo (sys_power_now e)) 1000000)
                     +:+ bat_element (getSysInfo (sys_capacity e))
                     +:+ getTime (clock e)).
    { unfold status_line. apply snprintf_fits. rewrite !strlen_app.
      unfold MX_STATUS_CHARS. lia. }
    rewrite Hfit. repeat split; try done.
    + apply Z.leb_le in Hid. lia.
    + rewrite !strlen_app. lia.
  - intros [= <- <- _]. exists "".
    pose proof (tmp_element_short path (sys_temp e)) as Ht.
    pose proof (pwr_element_short (Z.quot (getSysInfo (sys_power_now e)) 1000000)) as Hp.
    pose proof (bat_element_short (getSysInfo (sys_capacity e))) as Hb.
    pose proof (getTime_short (clock e)) as Hc.
    unfold short, MX_ELEMENT_CHARS in *.
    assert (Hfit : status_line "" (tmp_element path (sys_temp e))
                     (pwr_element (Z.quot (getSysInfo (sys_power_now e)) 1000000))
                     (bat_element (getSysInfo (sys_capacity e))) (getTime (clock e))
                   = "" +:+ tmp_element path (sys_temp e)
                     +:+ pwr_element (Z.quot (getSysInfo (sys_power_now e)) 1000000)
                     +:+ bat_element (getSysInfo (sys_capacity e))
                     +:+ getTime (clock e)).
    { unfold status_line. apply snprintf_fits. rewrite !strlen_app.
      unfold MX_STATUS_CHARS. change (strlen "") with 0. lia. }
    rewrite Hfit. repeat split; try done.
    rewrite !strlen_app. change (strlen "") with 0. lia.
Qed.

Lemma getStatusInfo_whole_elements_witness :
  exists network,
    "e2:1000M tmp:45C pwr:12W bat:50% 30-10-2026 12:00"
    = network +:+ "tmp:45C " +:+ "pwr:12W " +:+ "bat:50% " +:+ "30-10-2026 12:00"
    /\ strlen network <= MX_ELEMENT_CHARS - 1.
Proof.
  destruct (getStatusInfo_whole_elements ethernet_status
              (Some (sysfsThermalPath text_setup))
              {| id := 28; wlanStatsResult := 0 |} {| id := 28; wlanStatsResult := 0 |}
              {| ifindex := 0; signal := 0 |} {| ifindex := 0; signal := 0 |}
              "e2:1000M tmp:45C pwr:12W bat:50% 30-10-2026 12:00" eq_refl)
    as (network & Hline & Hlen & _).
  exists network. split; [exact Hline | exact Hlen].
Defined.

Lemma loop_body_id (cfg : Setup) (st st' : State) (e : Env) :
  next (loop_body cfg st e) = Continue st' -> id (nlData st') = id (nlData st).
Proof.
  assert (Hgs : forall line nl w,
             getStatusInfo (status e) (Some (sysfsThermalPath cfg))
                           (nlData st) (wStats st) = Some (line, nl, w) ->
             id nl = id (nlData st)).
  { unfold getStatusInfo. intros line nl w.
    destruct (0 <=? id (nlData st)).
    - destruct (getNetwork _ _ _ _) as [[[n nl1] w1]|] eqn:Hnet; [|discriminate].
      intros [= _ <- _]. revert Hnet. unfold getNetwork.
      destruct (getifaddrs _) as [l|].
      + intros H. by apply getNetwork_loop_bound in H as [_ Hid].
      + by intros [= _ <- _].
    - by intros [= _ <- _]. }
  unfold loop_body, refresh.
  destruct (poll_ret e <? 0); [discriminate|].
  destruct (0 <? poll_ret e).
  - destruct (handle_events st e) as [|ds|slots sBuf ds]; try discriminate.
    destruct (negb (String.eqb sBuf "")).
    + simpl. destruct (sbOut _ _ =? -1); [discriminate|]. by intros [= <-].
    + destruct (getStatusInfo _ _ _ _) as [[[line nl] w]|] eqn:Hg; [|discriminate].
      simpl. destruct (sbOut _ _ =? -1); [discriminate|]. intros [= <-]. simpl.
      by apply (Hgs line nl w).
  - destruct (getStatusInfo _ _ _ _) as [[[line nl] w]|] eqn:Hg; [|discriminate].
    simpl. destruct (sbOut _ _ =? -1); [discriminate|]. intros [= <-]. simpl.
    by apply (Hgs line nl w).
Qed.

(** X12.  The family id that [init_nl80211] left in [nlData] never
    changes while the loop runs: every state the loop continues with,
    after any number of iterations, has the id of the first state. *)
Theorem run_keeps_family_id (cfg : Setup) (envs : list Env) (st st' : State)
    (it : iteration) :
  it ∈ run cfg st envs ->
  next it = Continue st' ->
  id (nlData st') = id (nlData st).
Proof.
  revert st. induction envs as [|e envs IH]; intros st Hin Hnext; simpl in Hin.
  - by apply elem_of_nil in Hin.
  - apply elem_of_cons in Hin as [-> | Hin].
    + by apply loop_body_id in Hnext.
    + destruct (next (loop_body cfg st e)) as [st1| | |] eqn:Hn;
        try (by apply elem_of_nil in Hin).
      rewrite (IH st1 Hin Hnext). by apply loop_body_id in Hn.
Qed.

Lemma run_keeps_family_id_witness :
  id (nlData refreshed_state) = id (nlData start_state).
Proof.
  apply (run_keeps_family_id text_setup [env_timeout] start_state refreshed_state
           (loop_body text_setup start_state env_timeout)).
  - simpl. apply elem_of_cons. by left.
  - reflexivity.
Defined.

Lemma quot_million_pos (x : Z) : 0 < Z.quot x 1000000 <-> 1000000 <= x.
Proof.
  destruct (Z_lt_le_dec x 0) as [Hneg | Hpos].
  - split; [|lia]. intros H. exfalso.
    pose proof (Z.quot_opp_l (- x) 1000000 ltac:(lia)) as Ho.
    rewrite Z.opp_involutive in Ho.
    pose proof (Z.quot_pos (- x) 1000000 ltac:(lia) ltac:(lia)). lia.
  - rewrite Z.quot_div_nonneg by lia. split.
    + intros H. destruct (Z_lt_le_dec x 1000000) as [Hs|]; [|done].
      rewrite Z.div_small in H by lia. lia.
    + intros H. apply Z.div_str_pos. lia.
Qed.

(** X13.  The power element is on the periodic line exactly when
    [power_now] (in microwatts) reads at least 1000000: a draw below one
    watt, a negative reading and an unreadable file all give no power
    element. *)
Theorem pwr_element_threshold (file : option Z) :
  pwr_element (Z.quot (getSysInfo file) 1000000) <> "" <-> 1000000 <= getSysInfo file.
Proof.
  rewrite <- quot_million_pos. unfold pwr_element.
  destruct (0 <? Z.quot (getSysInfo file) 1000000) eqn:Hq.
  - apply Z.ltb_lt in Hq. split; [done|]. intros _.
    unfold snprintf. change (Z.to_nat (MX_ELEMENT_CHARS - 1)) with 31%nat.
    rewrite str_app_cons. simpl. discriminate.
  - apply Z.ltb_ge in Hq. split; [done | lia].
Qed.

(** ** The mixer callback *)

Lemma snprintf_bound_any (size : Z) (s : string) :
  strlen (snprintf size s) <= Z.max (size - 1) 0.
Proof. unfold snprintf, strlen. rewrite str_take_length. lia. Qed.

Lemma mixer_elem_cb_bound (el : mixer_elem) (volumeLevel out : string) :
  strlen volumeLevel <= MX_STATUS_CHARS - 1 ->
  mixer_elem_cb el volumeLevel = Some out ->
  strlen out <= MX_STATUS_CHARS - 1.
Proof.
  intros Hold. unfold mixer_elem_cb.
  destruct (mask el =? 0); [by intros [= <-]|].
  destruct (if has_playback_volume el then _ else _) as [mn mx].
  match goal with
  | |- context [strlen ?f <=? _] => set (first := f)
  end.
  destruct (negb _ || negb _).
  - destruct (strlen first <=? MX_STATUS_CHARS - 1) eqn:Hr; [|discriminate].
    apply Z.leb_le in Hr. intros [= <-]. rewrite strlen_app.
    match goal with
    | |- context [snprintf ?size ?s] => pose proof (snprintf_bound_any size s) as Hb
    end.
    pose proof (strlen_nonneg first). unfold MX_STATUS_CHARS in *. lia.
  - intros [= <-]. by apply snprintf_bound.
Qed.

(** X14.  Whatever the callbacks of one [snd_mixer_handle_events] call
    report, the text they leave in [volumeLevel] (when they leave one)
    has at most [MX_STATUS_CHARS - 1] characters: the second
    [snprintf], which writes behind the first, stays inside the
    buffer. *)
Theorem run_callbacks_fits (els : list mixer_elem) (out : string) :
  run_callbacks els "" = Some out -> strlen out <= MX_STATUS_CHARS - 1.
Proof.
  assert (Hgen : forall v, strlen v <= MX_STATUS_CHARS - 1 ->
                           run_callbacks els v = Some out ->
                           strlen out <= MX_STATUS_CHARS - 1).
  { induction els as [|el els IH]; intros v Hv; simpl.
    - by intros [= <-].
    - destruct (mixer_elem_cb el v) as [v'|] eqn:Hcb; [|discriminate].
      apply IH. by eapply mixer_elem_cb_bound. }
  apply Hgen. by compute.
Qed.

Lemma run_callbacks_fits_witness :
  strlen "Master: 50%:!40%" <= MX_STATUS_CHARS - 1.
Proof. apply (run_callbacks_fits [master_elem]). reflexivity. Defined.

(** ** Events of one poll *)

(** X16.  When the udev monitor and the mixer are both readable in one
    poll, the line shown is the mixer's: [udevStatus] still stores its
    fragment in the slot array, but the line it composed is replaced by
    the content of [volumeLevel], also when that is empty. *)
Theorem mixer_line_replaces_udev_line (st : State) (e : Env) (dev : udev_device)
    (ret : Z) (slots : list string) (line volumeLevel : string) :
  poll_error e = false ->
  has (revents0 e) POLLIN = true ->
  udev_monitor_receive_device e = Some dev ->
  udevStatus "" (udevDisplayInfo st) dev = Some (ret, slots, line) ->
  has (revents1 e) POLLIN = false ->
  has (revents2 e) POLLIN = true ->
  0 <= snd_mixer_handle_events e ->
  run_callbacks (mixer_callbacks e) "" = Some volumeLevel ->
  handle_events st e = EvLine slots (snprintf MX_STATUS_CHARS volumeLevel) [].
Proof.
  intros Herr H0 Hdev Hu H1 H2 Hret Hcb. unfold handle_events.
  rewrite Herr, H0, Hdev, Hu, H1, H2, Hcb.
  by assert ((snd_mixer_handle_events e <? 0) = false) as -> by lia.
Qed.

Lemma mixer_line_replaces_udev_line_witness :
  handle_events refreshed_state
    {| poll_ret := 2; revents0 := POLLIN; revents1 := 0; revents2 := POLLIN;
       udev_monitor_receive_device := Some backlight_dev;
       signal_read_ok := true;
       snd_mixer_handle_events := 0;
       mixer_callbacks := [master_elem];
       status := sample_status;
       dwlbSend := 0 |}
  = EvLine ["LCD: 50% "; ""; ""; ""; ""; ""] "Master: 50%:!40%" [].
Proof.
  apply (mixer_line_replaces_udev_line refreshed_state _ backlight_dev 0
           ["LCD: 50% "; ""; ""; ""; ""; ""] "LCD: 50% " "Master: 50%:!40%");
    first [reflexivity | simpl; lia].
Defined.



(** X18.  The loop never continues without having handed exactly one
    line to the sink, and the timeout of the next [poll] tells which
    kind: [NOTIFY_TIMEOUT] after an event line, [STATUS_TIMEOUT] after
    the line of [getStatusInfo]. *)
Theorem continue_after_one_line (cfg : Setup) (st st' : State) (e : Env) :
  next (loop_body cfg st e) = Continue st' ->
  (exists line, emitted (loop_body cfg st e) = [EventLine line]
                /\ line <> "" /\ timeout st' = NOTIFY_TIMEOUT)
  \/ (exists line, emitted (loop_body cfg st e) = [StatusLine line]
                   /\ timeout st' = STATUS_TIMEOUT).
Proof.
  unfold loop_body, refresh.
  destruct (poll_ret e <? 0); [discriminate|].
  destruct (0 <? poll_ret e).
  - destruct (handle_events st e) as [|ds|slots sBuf ds]; try discriminate.
    destruct (String.eqb sBuf "") eqn:Hs; simpl.
    + destruct (getStatusInfo _ _ _ _) as [[[line nl] w]|]; [|discriminate].
      simpl. destruct (sbOut _ _ =? -1); [discriminate|]. intros [= <-].
      right. by exists line.
    + destruct (sbOut _ _ =? -1); [discriminate|]. intros [= <-].
      left. exists sBuf. apply String.eqb_neq in Hs. done.
  - destruct (getStatusInfo _ _ _ _) as [[[line nl] w]|]; [|discriminate].
    simpl. destruct (sbOut _ _ =? -1); [discriminate|]. intros [= <-].
    right. by exists line.
Qed.

Lemma continue_after_one_line_witness :
  exists line,
    emitted (loop_body text_setup refreshed_state (env_udev (Some backlight_dev)))
    = [EventLine line] /\ line <> "".
Proof.
  destruct (continue_after_one_line text_setup refreshed_state _
              (env_udev (Some backlight_dev)) eq_refl)
    as [(line & Hem & Hne & _) | (line & Hem & _)].
  - exists line. split; [exact Hem | exact Hne].
  - discriminate Hem.
Defined.

(** ** Start-up: the thermal zone *)

Lemma prefix_app (a b : string) : String.prefix a (a +:+ b) = true.
Proof.
  induction a as [|c a IH]; [by destruct b|].
  rewrite str_app_cons. simpl. by destruct (ascii_dec c c).
Qed.

Lemma prefix_inv (a h : string) :
  String.prefix a h = true -> exists post, h = a +:+ post.
Proof.
  revert h. induction a as [|c a IH]; intros h.
  - intros _. by exists h.
  - destruct h as [|c' h]; simpl; [discriminate|].
    destruct (ascii_dec c c') as [<-|]; [|discriminate].
    intros H. apply IH in H as [post ->]. by exists post.
Qed.

Lemma strstr_nil (needle : string) :
  strstr "" needle = String.prefix needle "" || false.
Proof. reflexivity. Qed.

Lemma strstr_cons (c : Ascii.ascii) (h needle : string) :
  strstr (String c h) needle = String.prefix needle (String c h) || strstr h needle.
Proof. reflexivity. Qed.

Lemma strstr_occurs (haystack needle : string) :
  strstr haystack needle = true <-> occurs needle haystack.
Proof.
  split.
  - induction haystack as [|c h IH].
    + rewrite strstr_nil, orb_false_r. intros H. apply prefix_inv in H as [post ->].
      by exists "", post.
    + rewrite strstr_cons. intros H. apply orb_true_iff in H as [H|H].
      * apply prefix_inv in H as [post ->]. by exists "", post.
      * apply IH in H as (pre & post & ->). by exists (String c pre), post.
  - intros (pre & post & ->). induction pre as [|c pre IH].
    + rewrite str_app_nil_l.
      destruct (needle +:+ post) as [|c r] eqn:Heq.
      * rewrite strstr_nil, <- Heq, prefix_app. reflexivity.
      * rewrite strstr_cons, <- Heq, prefix_app. reflexivity.
    + rewrite str_app_cons, strstr_cons, IH. apply orb_true_r.
Qed.

Lemma zone_name_path_fits (i : Z) :
  0 <= i < 9 -> (strlen (zone_name_path i) <? MX_PATH_LEN) = true.
Proof.
  intros H.
  assert (i = 0 \/ i = 1 \/ i = 2 \/ i = 3 \/ i = 4 \/ i = 5 \/ i = 6 \/ i = 7 \/ i = 8)
    as Hi by lia.
  repeat (destruct Hi as [-> | Hi]; [reflexivity|]). by subst.
Qed.

Lemma getThermalPath_loop_spec (fopen : string -> option string) (fuel : nat) :
  forall i,
    0 <= i -> i + Z.of_nat fuel <= 9 ->
    (getThermalPath_loop fuel i fopen = -1
     /\ ((exists j, i <= j < i + Z.of_nat fuel
                    /\ fopen (zone_name_path j) = None
                    /\ forall k, i <= k < j -> zone_other fopen k)
         \/ (forall k, i <= k < i + Z.of_nat fuel -> zone_other fopen k)))
    \/ (i <= getThermalPath_loop fuel i fopen < i + Z.of_nat fuel
        /\ zone_matches fopen (getThermalPath_loop fuel i fopen)
        /\ forall k, i <= k < getThermalPath_loop fuel i fopen -> zone_other fopen k).
Proof.
  induction fuel as [|fuel IH]; intros i Hi Hfuel.
  - left. split; [reflexivity|]. right. intros k Hk. lia.
  - cbn [getThermalPath_loop]. rewrite zone_name_path_fits by lia.
    destruct (fopen (zone_name_path i)) as [content|] eqn:Hopen.
    + destruct (strstr THERMAL_NAME (fgets 15 content)) eqn:Hm.
      * right. split; [lia|]. split; [by exists content|]. intros k Hk. lia.
      * assert (Hother : zone_other fopen i) by (by exists content).
        destruct (IH (i + 1)) as [(-> & Hcase) | (Hr & Hmatch & Hbefore)]; try lia.
        -- left. split; [reflexivity|].
           destruct Hcase as [(j & Hj & Hnone & Hk) | Hall].
           ++ left. exists j. split; [lia|]. split; [done|].
              intros k Hk'. destruct (decide (k = i)) as [->|]; [done|]. apply Hk. lia.
           ++ right. intros k Hk. destruct (decide (k = i)) as [->|]; [done|].
              apply Hall. lia.
        -- right. split; [lia|]. split; [done|].
           intros k Hk. destruct (decide (k = i)) as [->|]; [done|]. apply Hbefore. lia.
    + left. split; [reflexivity|]. left. exists i. split; [lia|]. split; [done|].
      intros k Hk. lia.
Qed.

(** X19.  [getThermalPath] returns the first of the zones hwmon0 ..
    hwmon8 whose type line occurs in [THERMAL_NAME], provided every
    zone before it can be read; it returns -1 when it meets a zone it
    cannot open before any match, or when none of the nine zones
    matches.  No other value is returned. *)
Theorem getThermalPath_first_match (fopen : string -> option string) :
  (getThermalPath fopen = -1
   /\ ((exists j, 0 <= j <= 8
                  /\ fopen (zone_name_path j) = None
                  /\ forall k, 0 <= k < j -> zone_other fopen k)
       \/ (forall k, 0 <= k <= 8 -> zone_other fopen k)))
  \/ (0 <= getThermalPath fopen <= 8
      /\ zone_matches fopen (getThermalPath fopen)
      /\ forall k, 0 <= k < getThermalPath fopen -> zone_other fopen k).
Proof.
  unfold getThermalPath.
  destruct (getThermalPath_loop_spec fopen 9 0) as [(Hr & Hcase) | (Hr & Hm & Hb)];
    try lia.
  - left. split; [done|].
    destruct Hcase as [(j & Hj & Hnone & Hk) | Hall].
    + left. exists j. split; [lia|]. done.
    + right. intros k Hk. apply Hall. lia.
  - right. split; [lia|]. done.
Qed.

(** X20.  The comparison is by substring: a zone is selected as soon as
    the first line of its name file (at most 14 characters) occurs
    anywhere in [THERMAL_NAME], so an empty name file selects the zone
    as well. *)
Theorem getThermalPath_substring (fopen : string -> option string) (content : string) :
  fopen (zone_name_path 0) = Some content ->
  occurs (fgets 15 content) THERMAL_NAME ->
  getThermalPath fopen = 0.
Proof.
  intros Hopen Hocc. apply strstr_occurs in Hocc.
  unfold getThermalPath. cbn [getThermalPath_loop].
  rewrite zone_name_path_fits by lia. by rewrite Hopen, Hocc.
Qed.

Lemma getThermalPath_substring_witness :
  getThermalPath empty_zone = 0 /\ getThermalPath two_zones = 1.
Proof.
  split; [|reflexivity].
  apply (getThermalPath_substring empty_zone "" eq_refl).
  exists "", THERMAL_NAME. reflexivity.
Defined.

(** ** Start-up: the dwlb socket and the choice of the sink *)

(** X21.  [dwlbSend] sends a status line of at most
    [MX_STATUS_CHARS - 1] characters uncut, as "all status <line>", and
    returns what [send] returned, closing the socket afterwards.  When
    [connect] fails it returns -1 without sending, and without closing
    the socket that [socket] had opened. *)
Theorem dwlbSend_status_line (e : Dwlb.dwlb_env) (line : string) :
  strlen line <= MX_STATUS_CHARS - 1 ->
  Dwlb.socket_ret e <> -1 ->
  (Dwlb.connect_ret e <> -1 ->
   Dwlb.dwlbSend e "all" "status" (Some line)
   = (Dwlb.send_ret e,
      [Dwlb.SysSocket; Dwlb.SysConnect; Dwlb.SysSend ("all status " +:+ line);
       Dwlb.SysClose]))
  /\ (Dwlb.connect_ret e = -1 ->
      Dwlb.dwlbSend e "all" "status" (Some line)
      = (-1, [Dwlb.SysSocket; Dwlb.SysConnect])).
Proof.
  intros Hlen Hsock. unfold Dwlb.dwlbSend.
  assert ((Dwlb.socket_ret e =? -1) = false) as -> by lia.
  split.
  - intros Hconn. assert ((Dwlb.connect_ret e =? -1) = false) as -> by lia.
    rewrite snprintf_fits; [reflexivity|].
    change ("all" +:+ " " +:+ "status" +:+ " " +:+ line) with ("all status " +:+ line).
    rewrite strlen_app. change (strlen "all status ") with 11.
    unfold MX_STATUS_CHARS in Hlen. lia.
  - by intros ->.
Qed.

Lemma dwlbSend_status_line_witness :
  Dwlb.dwlbSend (dwlb_late 0) "all" "status" (Some "LCD: 50% ")
  = (-1, [Dwlb.SysSocket; Dwlb.SysConnect])
  /\ Dwlb.dwlbSend (dwlb_late 3) "all" "status" (Some "LCD: 50% ")
     = (14, [Dwlb.SysSocket; Dwlb.SysConnect; Dwlb.SysSend "all status LCD: 50% ";
             Dwlb.SysClose]).
Proof.
  split.
  - refine (proj2 (dwlbSend_status_line (dwlb_late 0) "LCD: 50% " _ _) _);
      first [reflexivity | discriminate].
  - refine (proj1 (dwlbSend_status_line (dwlb_late 3) "LCD: 50% " _ _) _); discriminate.
Defined.

Lemma dwlb_probe_spec (attempt : nat -> Dwlb.dwlb_env) (fuel : nat) :
  forall i j n,
    Dwlb.dwlb_probe fuel i attempt = (j, n) ->
    (j = -1 /\ n = (i + fuel)%nat
     /\ forall k, (i <= k < i + fuel)%nat -> ~ probe_ok attempt k)
    \/ (j <> -1 /\ (i < n <= i + fuel)%nat
        /\ (Dwlb.dwlbSend (attempt (n - 1)%nat) "all" "status" (Some "dwl")).1 = j
        /\ forall k, (i <= k < n - 1)%nat -> ~ probe_ok attempt k).
Proof.
  induction fuel as [|fuel IH]; intros i j n; cbn [Dwlb.dwlb_probe].
  - intros [= <- <-]. left. split; [done|]. split; [lia|]. intros k Hk. lia.
  - destruct ((Dwlb.dwlbSend (attempt i) "all" "status" (Some "dwl")).1 =? -1) eqn:Hj.
    + apply Z.eqb_eq in Hj. intros Hrec.
      assert (Hfail : ~ probe_ok attempt i) by (unfold probe_ok; lia).
      apply IH in Hrec as [(-> & -> & Hall) | (Hne & Hn & Hlast & Hbefore)].
      * left. split; [done|]. split; [lia|]. intros k Hk.
        destruct (decide (k = i)) as [->|]; [done|]. apply Hall. lia.
      * right. split; [done|]. split; [lia|]. split; [done|]. intros k Hk.
        destruct (decide (k = i)) as [->|]; [done|]. apply Hbefore. lia.
    + apply Z.eqb_neq in Hj. intros [= <- <-]. right. split; [done|]. split; [lia|].
      replace (S i - 1)%nat with i by lia. split; [done|]. intros k Hk. lia.
Qed.

(** X22.  [dwlbSocketInit] gives up at once when XDG_RUNTIME_DIR is not
    set.  Otherwise it probes the socket at most ten times and stops at
    the first probe that gets through: it returns 0 exactly when one of
    the first ten probes gets through, having made no probe after that
    one, and -1 after ten failed probes. *)
Theorem dwlbSocketInit_bounded (xdgRunTimeDir : option string)
    (attempt : nat -> Dwlb.dwlb_env) (dwlb_ref : Z) :
  let '(ret, path, n) := Dwlb.dwlbSocketInit xdgRunTimeDir attempt dwlb_ref in
  (xdgRunTimeDir = None -> ret = -1 /\ path = None /\ n = 0%nat)
  /\ (xdgRunTimeDir <> None ->
      (ret = 0 /\ (1 <= n <= 10)%nat /\ probe_ok attempt (n - 1)
       /\ forall k, (k < n - 1)%nat -> ~ probe_ok attempt k)
      \/ (ret = -1 /\ n = 10%nat /\ forall k, (k < 10)%nat -> ~ probe_ok attempt k)).
Proof.
  unfold Dwlb.dwlbSocketInit. destruct xdgRunTimeDir as [dir|]; [|by split].
  destruct (Dwlb.dwlb_probe 10 0 attempt) as [j n] eqn:Hp.
  apply dwlb_probe_spec in Hp as [(-> & -> & Hall) | (Hne & Hn & Hlast & Hbefore)].
  - simpl. split; [discriminate|]. intros _. right. split; [done|]. split; [done|].
    intros k Hk. apply Hall. lia.
  - assert ((j =? -1) = false) as -> by lia.
    split; [discriminate|]. intros _. left. split; [done|]. split; [lia|].
    split; [unfold probe_ok; by rewrite Hlast|]. intros k Hk. apply Hbefore. lia.
Qed.

(** X23.  When [main] gets past the choice of the sink, the sink is
    X11, text or dwlb, never the unset value; dwlb is chosen only for an
    argument that does not start with "-", reads as a number that is
    not negative, and after [dwlbSocketInit] succeeded for that number.
    Hence [sbOut] can return -1 in the loop only for the dwlb sink, when
    [dwlbSend] returned -1. *)
Theorem select_output_sink (argv1 : option string) (display : bool)
    (xdgRunTimeDir : option string) (attempt : nat -> Dwlb.dwlb_env) (o : output) :
  Dwlb.select_output argv1 display xdgRunTimeDir attempt = Some o ->
  o <> none
  /\ (forall r, sbOut o r = -1 -> o = dwlb /\ r = -1)
  /\ (o = dwlb ->
      exists arg,
        argv1 = Some arg /\ head_char arg <> "-"%char /\ 0 <= atol arg
        /\ (Dwlb.dwlbSocketInit xdgRunTimeDir attempt (atol arg)).1.1 <> -1)
  /\ (argv1 = None -> o = if display then xorg else text).
Proof.
  unfold Dwlb.select_output. destruct argv1 as [arg|].
  - destruct (Ascii.eqb (head_char arg) "-") eqn:Hdash.
    + destruct (Ascii.eqb (Dwlb.second_char arg) "t"); [|discriminate].
      intros [= <-]. repeat split; try discriminate.
    + destruct (atol arg <? 0) eqn:Hneg; [discriminate|].
      destruct ((Dwlb.dwlbSocketInit xdgRunTimeDir attempt (atol arg)).1.1 =? -1)
        eqn:Hinit; [discriminate|].
      intros [= <-]. split; [discriminate|]. split; [by intros r Hr|].
      split; [|discriminate]. intros _. exists arg.
      apply Ascii.eqb_neq in Hdash. apply Z.ltb_ge in Hneg. apply Z.eqb_neq in Hinit.
      done.
  - destruct display; intros [= <-]; repeat split; try discriminate; done.
Qed.

Lemma select_output_sink_witness :
  Dwlb.select_output (Some "7") false (Some "/run/user/1000") dwlb_late = Some dwlb
  /\ forall r, sbOut dwlb r = -1 -> dwlb = dwlb /\ r = -1.
Proof.
  split; [reflexivity|].
  exact (proj1 (proj2 (select_output_sink (Some "7") false (Some "/run/user/1000")
                         dwlb_late dwlb eq_refl))).
Defined.

Example dwlbSocketInit_ex :
  Dwlb.dwlbSocketInit (Some "/run/user/1000") dwlb_late 7
  = (0, Some "/run/user/1000/dwlb/dwlb-7", 4%nat)
  /\ Dwlb.dwlbSocketInit None dwlb_late 7 = (-1, None, 0%nat)
  /\ Dwlb.select_output (Some "-x") true (Some "/run/user/1000") dwlb_late = None
  /\ Dwlb.select_output (Some "-text") true None dwlb_late = Some text.
Proof. repeat split. Qed.

(** ** The refresh: when it produces a line, and which *)






Lemma shown_entry_inv (ifa : ifaddrs) :
  shown_entry ifa = true ->
  exists fam,
    ifa_family ifa = Some fam
    /\ flag_set (ifa_flags ifa) IFF_LOOPBACK
       || flag_set (ifa_flags ifa) IFF_POINTOPOINT = false
    /\ (fam =? AF_INET) || (fam =? AF_INET6) = true
    /\ flag_set (ifa_flags ifa) IFF_RUNNING = true.
Proof.
  unfold shown_entry. destruct (ifa_family ifa) as [fam|]; [|discriminate].
  intros H. apply andb_true_iff in H as [H Hrun]. apply andb_true_iff in H as [Hlo Hfam].
  apply negb_true_iff in Hlo. by exists fam.
Qed.
















(** ** Fragments of the dispatch: cuts and ranges *)

(** C8 as stated fails for the unregistered subsystem: with a device
    name of 19 characters the element buffer ends inside the action
    string, and the fragment stored in the last slot does not contain
    "change". *)
Lemma fallback_cuts_action_string :
  subsystem foo_long_dev = Some "foo" /\ action foo_long_dev = "change"
  /\ udevStatus "" empty_slots foo_long_dev
     = Some (0, [""; ""; ""; ""; ""; "foo: 1234567890123456789: chang"],
             "foo: 1234567890123456789: chang")
  /\ ~ occurs "change" "foo: 1234567890123456789: chang".
Proof.
  repeat split. intros H. apply strstr_occurs in H. discriminate H.
Qed.

(** C8.  For a "change" record of subsystem "backlight" with
    actual_brightness 50 and max_brightness 100, [udevStatus] stores
    "LCD: 50% " in slot 0, the slot of the backlight entry of the table.
    For a "change" record of the unregistered subsystem "foo" it stores
    in the last slot the first 31 characters of
    "foo: <device name>: change ": "foo" always occurs in that fragment;
    when the device name has at most 18 characters the fragment is
    "foo: <device name>: change" (followed by the separator if the name
    has at most 17) and "change" occurs in it. *)
Theorem udev_dispatch_fragments (dev : udev_device) (slots : list string) :
  action dev = "change" ->
  (subsystem dev = Some "backlight" ->
   udev_device_get_sysattr_value (sysattrs dev) "actual_brightness" = Some "50" ->
   udev_device_get_sysattr_value (sysattrs dev) "max_brightness" = Some "100" ->
   udevStatus "" slots dev
   = Some (0, <[0%nat := "LCD: 50% "]> slots,
           compose "" (<[0%nat := "LCD: 50% "]> slots)))
  /\ (subsystem dev = Some "foo" ->
      exists frag,
        udevStatus "" slots dev
        = Some (0, <[Z.to_nat (MX_NUMBER_ELEMENTS - 1) := frag]> slots,
                compose "" (<[Z.to_nat (MX_NUMBER_ELEMENTS - 1) := frag]> slots))
        /\ frag = snprintf MX_ELEMENT_CHARS ("foo: " +:+ sysname dev +:+ ": change ")
        /\ occurs "foo" frag
        /\ ((String.length (sysname dev) <= 18)%nat ->
            frag = "foo: " +:+ sysname dev +:+ ": change"
                   +:+ str_take (18 - String.length (sysname dev)) " "
            /\ occurs "change" frag)).
Proof.
  intros Hact. split.
  - intros Hsub Ha Hm.
    unfold udevStatus, udevStatus_writes. rewrite Hsub, Hact.
    change (take (Z.to_nat MX_NUMBER_ELEMENTS) udevActions) with udevActions.
    simpl. unfold backlightStatus. rewrite Ha, Hm. reflexivity.
  - intros Hsub.
    exists (snprintf MX_ELEMENT_CHARS ("foo: " +:+ sysname dev +:+ ": change ")).
    split; [|split; [reflexivity|split]].
    + unfold udevStatus, udevStatus_writes. rewrite Hsub, Hact. reflexivity.
    + unfold snprintf.
      change (Z.to_nat (MX_ELEMENT_CHARS - 1)) with 31%nat.
      rewrite (str_take_app 31 "foo: ").
      change (31 <=? String.length "foo: ")%nat with false. cbv iota.
      exists "", (": " +:+ str_take (31 - String.length "foo: ")
                           (sysname dev +:+ ": change ")).
      reflexivity.
    + intros Hlen.
      change ("foo: " +:+ sysname dev +:+ ": change ")
        with ("foo" +:+ ": " +:+ sysname dev +:+ ": " +:+ "change" +:+ " ").
      rewrite (fallback_fragment _ Hlen). split; [reflexivity|].
      exists ("foo: " +:+ sysname dev +:+ ": "),
             (str_take (18 - String.length (sysname dev)) " ").
      by rewrite !str_app_assoc.
Qed.

Lemma udev_dispatch_fragments_witness :
  udevStatus "" empty_slots backlight_dev
  = Some (0, ["LCD: 50% "; ""; ""; ""; ""; ""], "LCD: 50% ")
  /\ exists frag,
      udevStatus "" empty_slots foo_dev
      = Some (0, [""; ""; ""; ""; ""; frag], frag)
      /\ frag = "foo: foo0: change "
      /\ occurs "foo" frag /\ occurs "change" frag.
Proof.
  split.
  - destruct (udev_dispatch_fragments backlight_dev empty_slots eq_refl) as [Hb _].
    exact (Hb eq_refl eq_refl eq_refl).
  - destruct (udev_dispatch_fragments foo_dev empty_slots eq_refl) as [_ Hf].
    destruct (Hf eq_refl) as (frag & Hrun & Hfrag & Hfoo & Hshort).
    destruct Hshort as [_ Hchange]; [simpl; lia|].
    exists frag. subst frag. repeat split; assumption.
Defined.

(** X4.  For an rfkill "change" record the rfkill slot gets the first 31
    characters of "<type> [rfkill index:<index>]: <state> ".  The state
    is "On" when the soft and the hard attribute both start with the
    character 0, and "Off" when the soft attribute does not start with
    0 (the hard attribute is then not looked at and may be missing) or
    the hard one does not.  The text is stored whole, state and
    separator included, when type, index and state together have at
    most 12 characters.  A record whose soft attribute is missing while
    the hard one is present, or whose soft attribute starts with 0
    while the hard one is missing, makes the handler read through a
    null pointer.  A record with neither attribute makes the handler
    fail, and [udevStatus] then stores the generic text in the last
    slot and leaves the rfkill slot alone. *)
Theorem udevStatus_rfkill (sBuf : string) (slots : list string) (dev : udev_device) :
  subsystem dev = Some "rfkill" ->
  action dev = "change" ->
  (forall soft hard,
      udev_device_get_sysattr_value (sysattrs dev) "soft" = Some soft ->
      udev_device_get_sysattr_value (sysattrs dev) "hard" = Some hard ->
      exists frag,
        udevStatus sBuf slots dev
        = Some (0, <[1%nat := frag]> slots, compose sBuf (<[1%nat := frag]> slots))
        /\ frag
           = snprintf MX_ELEMENT_CHARS
               (rfkill_text dev
                  (if is_zero_char soft && is_zero_char hard then "On" else "Off")))
  /\ (forall soft,
        udev_device_get_sysattr_value (sysattrs dev) "soft" = Some soft ->
        udev_device_get_sysattr_value (sysattrs dev) "hard" = None ->
        if is_zero_char soft then udevStatus sBuf slots dev = None
        else
          exists frag,
            udevStatus sBuf slots dev
            = Some (0, <[1%nat := frag]> slots, compose sBuf (<[1%nat := frag]> slots))
            /\ frag = snprintf MX_ELEMENT_CHARS (rfkill_text dev "Off"))
  /\ (forall hard,
        udev_device_get_sysattr_value (sysattrs dev) "soft" = None ->
        udev_device_get_sysattr_value (sysattrs dev) "hard" = Some hard ->
        udevStatus sBuf slots dev = None)
  /\ (udev_device_get_sysattr_value (sysattrs dev) "soft" = None ->
      udev_device_get_sysattr_value (sysattrs dev) "hard" = None ->
      exists frag,
        udevStatus sBuf slots dev
        = Some (0, <[5%nat := frag]> slots, compose sBuf (<[5%nat := frag]> slots))
        /\ frag = snprintf MX_ELEMENT_CHARS
                    ("rfkill: " +:+ sysname dev +:+ ": change "))
  /\ (forall state,
        strlen (fmt_str (udev_device_get_sysattr_value (sysattrs dev) "type"))
        + strlen (fmt_str (udev_device_get_sysattr_value (sysattrs dev) "index"))
        + strlen state <= 12 ->
        snprintf MX_ELEMENT_CHARS (rfkill_text dev state) = rfkill_text dev state).
Proof.
  intros Hsub Hact.
  assert (Hrun : udevStatus sBuf slots dev
    = match rfKillStatus dev with
      | None => None
      | Some (r, Some s) =>
          if r =? -1
          then Some (0, <[5%nat := snprintf MX_ELEMENT_CHARS
                                     ("rfkill: " +:+ sysname dev +:+ ": change ")]>
                          (<[1%nat := s]> slots),
                     compose sBuf
                       (<[5%nat := snprintf MX_ELEMENT_CHARS
                                     ("rfkill: " +:+ sysname dev +:+ ": change ")]>
                          (<[1%nat := s]> slots)))
          else Some (0, <[1%nat := s]> slots, compose sBuf (<[1%nat := s]> slots))
      | Some (r, None) =>
          if r =? -1
          then Some (0, <[5%nat := snprintf MX_ELEMENT_CHARS
                                     ("rfkill: " +:+ sysname dev +:+ ": change ")]> slots,
                     compose sBuf
                       (<[5%nat := snprintf MX_ELEMENT_CHARS
                                     ("rfkill: " +:+ sysname dev +:+ ": change ")]> slots))
          else Some (0, slots, compose sBuf slots)
      end).
  { unfold udevStatus, udevStatus_writes. rewrite Hsub, Hact.
    change (take (Z.to_nat MX_NUMBER_ELEMENTS) udevActions) with udevActions.
    simpl. destruct (rfKillStatus dev) as [[r [s|]]|]; simpl; [| |reflexivity].
    - destruct (r =? -1); reflexivity.
    - destruct (r =? -1); reflexivity. }
  rewrite Hrun. unfold rfKillStatus, rfkill_text.
  split; [|split; [|split; [|split]]].
  - intros soft hard -> ->. eexists. split; [|reflexivity].
    destruct (is_zero_char soft), (is_zero_char hard); reflexivity.
  - intros soft -> ->. destruct (is_zero_char soft); [reflexivity|].
    eexists. split; reflexivity.
  - intros hard -> ->. reflexivity.
  - intros -> ->. eexists. split; reflexivity.
  - intros state Hlen. apply snprintf_fits. rewrite !strlen_app.
    change (strlen " [rfkill index:") with 15. change (strlen "]: ") with 3.
    change (strlen " ") with 1. unfold MX_ELEMENT_CHARS. lia.
Qed.

Lemma udevStatus_rfkill_witness :
  udevStatus "" empty_slots rfkill_dev
  = Some (0, [""; "wlan [rfkill index:0]: On "; ""; ""; ""; ""],
          "wlan [rfkill index:0]: On ")
  /\ udevStatus "" empty_slots rfkill_soft_dev
     = Some (0, [""; "wlan [rfkill index:0]: Off "; ""; ""; ""; ""],
             "wlan [rfkill index:0]: Off ")
  /\ udevStatus "" empty_slots rfkill_bare_dev
     = Some (0, [""; ""; ""; ""; ""; "rfkill: rfkill0: change "],
             "rfkill: rfkill0: change ")
  /\ snprintf MX_ELEMENT_CHARS (rfkill_text rfkill_dev "Off")
     = "wlan [rfkill index:0]: Off ".
Proof.
  split; [|split; [|split]].
  - destruct (udevStatus_rfkill "" empty_slots rfkill_dev eq_refl eq_refl) as [Hon _].
    destruct (Hon "0" "0" eq_refl eq_refl) as (frag & Hrun & ->). exact Hrun.
  - destruct (udevStatus_rfkill "" empty_slots rfkill_soft_dev eq_refl eq_refl)
      as (_ & Hsoft & _).
    destruct (Hsoft "1" eq_refl eq_refl) as (frag & Hrun & ->). exact Hrun.
  - destruct (udevStatus_rfkill "" empty_slots rfkill_bare_dev eq_refl eq_refl)
      as (_ & _ & _ & Hbare & _).
    destruct (Hbare eq_refl eq_refl) as (frag & Hrun & ->). exact Hrun.
  - destruct (udevStatus_rfkill "" empty_slots rfkill_dev eq_refl eq_refl)
      as (_ & _ & _ & _ & Hwhole).
    rewrite (Hwhole "Off"); [reflexivity | by vm_compute].
Defined.

Lemma fmt_int_percent (p : Z) : 0 <= p <= 100 -> strlen (fmt_int p) <= 3.
Proof.
  intros Hp.
  assert (H : Forall (fun q => strlen (fmt_int q) <= 3) (seqZ 0 101)).
  { apply (bool_decide_unpack _). by vm_compute. }
  rewrite Forall_forall in H. apply H. apply elem_of_seqZ. lia.
Qed.

Lemma percent_range (x d : Z) : 0 <= x <= d -> 0 < d -> 0 <= Z.quot (100 * x) d <= 100.
Proof.
  intros Hx Hd. rewrite Z.quot_div_nonneg by lia. split.
  - apply Z.div_pos; lia.
  - apply Z.div_le_upper_bound; lia.
Qed.

(** X5.  For a backlight "change" record whose brightness attributes
    are the decimal texts of [a] and [m] with [0 <= a <= m] and [100*m]
    inside the range of a [long] (so that neither [atol] nor the product
    overflows): when [m] is not 0 the backlight slot gets "LCD: p% ",
    whole, with [p] the quotient of [100*a] by [m], which lies between 0
    and 100; when [m] is 0 the handler divides by zero. *)
Theorem udevStatus_backlight_percent (sBuf : string) (slots : list string)
    (dev : udev_device) (a m : Z) :
  subsystem dev = Some "backlight" ->
  action dev = "change" ->
  udev_device_get_sysattr_value (sysattrs dev) "actual_brightness" = Some (fmt_int a) ->
  udev_device_get_sysattr_value (sysattrs dev) "max_brightness" = Some (fmt_int m) ->
  0 <= a <= m ->
  100 * m <= LONG_MAX ->
  (m <> 0 ->
   udevStatus sBuf slots dev
   = Some (0,
           <[0%nat := "LCD: " +:+ fmt_int (Z.quot (100 * a) m) +:+ "% "]> slots,
           compose sBuf
             (<[0%nat := "LCD: " +:+ fmt_int (Z.quot (100 * a) m) +:+ "% "]> slots))
   /\ 0 <= Z.quot (100 * a) m <= 100)
  /\ (m = 0 -> udevStatus sBuf slots dev = None).
Proof.
  intros Hsub Hact Ha Hm Hrange Hlong.
  assert (Hrun : udevStatus sBuf slots dev
    = if m =? 0 then None
      else Some (0,
           <[0%nat := snprintf MX_ELEMENT_CHARS
                        ("LCD: " +:+ fmt_int (Z.quot (100 * a) m) +:+ "% ")]> slots,
           compose sBuf
             (<[0%nat := snprintf MX_ELEMENT_CHARS
                           ("LCD: " +:+ fmt_int (Z.quot (100 * a) m) +:+ "% ")]> slots))).
  { unfold udevStatus, udevStatus_writes. rewrite Hsub, Hact.
    change (take (Z.to_nat MX_NUMBER_ELEMENTS) udevActions) with udevActions.
    simpl. unfold backlightStatus. rewrite Ha, Hm, !atol_fmt_int.
    destruct (m =? 0); reflexivity. }
  split.
  - intros Hne.
    assert (Hp : 0 <= Z.quot (100 * a) m <= 100) by (apply percent_range; lia).
    split; [|exact Hp].
    rewrite Hrun. assert ((m =? 0) = false) as -> by lia.
    rewrite snprintf_fits; [reflexivity|].
    pose proof (fmt_int_percent _ Hp) as Hd.
    rewrite !strlen_app. change (strlen "LCD: ") with 5. change (strlen "% ") with 2.
    unfold MX_ELEMENT_CHARS. lia.
  - intros ->. by rewrite Hrun.
Qed.

Lemma udevStatus_backlight_percent_witness :
  udevStatus "" empty_slots backlight_dim_dev
  = Some (0, ["LCD: 14% "; ""; ""; ""; ""; ""], "LCD: 14% ")
  /\ 0 <= Z.quot (100 * 37) 255 <= 100.
Proof.
  destruct (udevStatus_backlight_percent "" empty_slots backlight_dim_dev 37 255
              eq_refl eq_refl eq_refl eq_refl) as [Hok _];
    [lia | by vm_compute |].
  exact (Hok ltac:(discriminate)).
Defined.

(** X15.  For a control with a joined switch and a joined volume,
    called with any mask other than 0, whose volume [v] lies in the
    range [min..max] with [min < max], the bounds being [long] values
    with [100*(max-min)] inside the range of a [long] (so that no
    subtraction or product overflows): [mixer_elem_cb] writes
    "name: p%" (with "!" before the number unless the switch reads 1)
    and no right-channel part; [p] is the quotient of [100*(v-min)] by
    [max-min] and lies between 0 and 100; the text is stored whole when
    the name has at most 184 characters. *)
Theorem mixer_elem_cb_joined (el : mixer_elem) (old : string) (a v mn mx : Z) :
  mask el <> 0 ->
  has_playback_switch el = true ->
  playback_switch_left el = Some a ->
  playback_switch_joined el = true ->
  has_playback_volume el = true ->
  playback_volume_range el = Some (mn, mx) ->
  playback_volume_left el = Some v ->
  playback_volume_joined el = true ->
  mn < mx -> mn <= v <= mx ->
  LONG_MIN <= mn -> mx <= LONG_MAX -> 100 * (mx - mn) <= LONG_MAX ->
  mixer_elem_cb el old
  = Some (snprintf MX_STATUS_CHARS
            (elem_name el +:+ ": " +:+ (if a =? 1 then "" else "!")
             +:+ fmt_int (Z.quot (100 * (v - mn)) (mx - mn)) +:+ "%"))
  /\ 0 <= Z.quot (100 * (v - mn)) (mx - mn) <= 100
  /\ (strlen (elem_name el) <= 184 ->
      mixer_elem_cb el old
      = Some (elem_name el +:+ ": " +:+ (if a =? 1 then "" else "!")
              +:+ fmt_int (Z.quot (100 * (v - mn)) (mx - mn)) +:+ "%")).
Proof.
  intros Hmask Hsw Ha Hswj Hvol Hrange Hv Hvj Hlt Hin Hmin Hmax Hlong.
  assert (Hrun : mixer_elem_cb el old
    = Some (snprintf MX_STATUS_CHARS
              (elem_name el +:+ ": " +:+ (if a =? 1 then "" else "!")
               +:+ fmt_int (Z.quot (100 * (v - mn)) (mx - mn)) +:+ "%"))).
  { unfold mixer_elem_cb.
    assert ((mask el =? 0) = false) as -> by lia.
    rewrite Hsw, Ha, Hswj, Hvol, Hrange, Hv, Hvj. simpl.
    assert ((0 <? mx - mn) = true) as -> by lia.
    by rewrite !Z.eqb_refl. }
  assert (Hp : 0 <= Z.quot (100 * (v - mn)) (mx - mn) <= 100)
    by (apply percent_range; lia).
  split; [exact Hrun|]. split; [exact Hp|].
  intros Hname. rewrite Hrun. f_equal. apply snprintf_fits.
  pose proof (fmt_int_percent _ Hp) as Hd.
  rewrite !strlen_app. change (strlen ": ") with 2. change (strlen "%") with 1.
  assert (strlen (if a =? 1 then "" else "!") <= 1) by (destruct (a =? 1); by compute).
  unfold MX_STATUS_CHARS. lia.
Qed.

Lemma mixer_elem_cb_joined_witness :
  mixer_elem_cb pcm_elem "" = Some "PCM: !50%".
Proof.
  assert (Hin : 10 <= 42 <= 74) by lia.
  destruct (mixer_elem_cb_joined pcm_elem "" 0 42 10 74 ltac:(discriminate)
              eq_refl eq_refl eq_refl eq_refl eq_refl eq_refl eq_refl eq_refl Hin
              ltac:(discriminate) ltac:(discriminate) ltac:(discriminate))
    as (_ & _ & Hwhole).
  apply Hwhole. discriminate.
Defined.

Lemma getNetwork_loop_known_later (e : net_env) (dup : ifaddrs) (mid : list ifaddrs) :
  forall rest i names displayStatus displayText nlData wStats,
    existsb (String.eqb (ifa_name dup)) names = true ->
    getNetwork_loop e (mid ++ dup :: rest) i names displayStatus displayText
                    nlData wStats
    = getNetwork_loop e (mid ++ rest) i names displayStatus displayText nlData wStats.
Proof.
  induction mid as [|ifa mid IH]; intros rest i names ds text nl w Hin.
  - by apply getNetwork_loop_known.
  - simpl.
    destruct (0 <? i); simpl; [|done].
    destruct (ifa_family ifa) as [fam|]; [|by apply IH].
    destruct (flag_set (ifa_flags ifa) IFF_LOOPBACK
              || flag_set (ifa_flags ifa) IFF_POINTOPOINT); [by apply IH|].
    destruct (negb ((fam =? AF_INET) || (fam =? AF_INET6))); [by apply IH|].
    destruct (negb (flag_set (ifa_flags ifa) IFF_RUNNING)); [by apply IH|].
    destruct (existsb (String.eqb (ifa_name ifa)) names); [by apply IH|].
    assert (Hin' : existsb (String.eqb (ifa_name dup))
                     (if (length names <? 15)%nat then names ++ [ifa_name ifa] else names)
                   = true).
    { destruct (length names <? 15)%nat; [|done].
      rewrite existsb_app, Hin. reflexivity. }
    destruct (first_is (ifa_name ifa) "w" && (0 <=? id nl)).
    + match goal with
      | |- match match ?g with _ => _ end with _ => _ end = _ =>
          destruct g as [[[r nl1] w1]|]; [|done]
      end.
      match goal with |- context [if ?c <? 0 then _ else _] => destruct (c <? 0) end;
        [done | by apply IH].
    + match goal with |- context [if ?c <? 0 then _ else _] => destruct (c <? 0) end;
        [done | by apply IH].
Qed.

(** X10.  An interface for which [getifaddrs] lists several entries
    (one per address, so of different families), with any entries
    between them, is queried and shown once: after a shown entry, a
    later entry with the same name changes nothing, whatever its family
    and flags, as long as fewer than 15 interfaces had been recorded. *)
Theorem getNetwork_shows_interface_once (e : net_env) (ifa dup : ifaddrs)
    (mid rest : list ifaddrs) (i : Z) (names : list string)
    (displayStatus displayText : string) (nlData : si_nlData) (wStats : si_wStats) :
  shown_entry ifa = true ->
  ifa_name dup = ifa_name ifa ->
  (length names < 15)%nat ->
  getNetwork_loop e (ifa :: mid ++ dup :: rest) i names displayStatus displayText
                  nlData wStats
  = getNetwork_loop e (ifa :: mid ++ rest) i names displayStatus displayText
                    nlData wStats.
Proof.
  intros Hshown Hname Hlen.
  apply shown_entry_inv in Hshown as (fam & Hfam & Hlo & Hinet & Hrun).
  simpl. rewrite Hfam, Hlo, Hinet, Hrun. simpl.
  destruct (0 <? i); simpl; [|done].
  destruct (existsb (String.eqb (ifa_name ifa)) names) eqn:Hex.
  { apply getNetwork_loop_known_later. by rewrite Hname. }
  assert (Hnames : (length names <? 15)%nat = true) by (apply Nat.ltb_lt; lia).
  rewrite Hnames.
  assert (Hknown : existsb (String.eqb (ifa_name dup)) (names ++ [ifa_name ifa]) = true).
  { rewrite existsb_app, Hname. simpl. by rewrite String.eqb_refl, orb_true_r. }
  destruct (first_is (ifa_name ifa) "w" && (0 <=? id nlData)).
  - match goal with
    | |- match match ?g with _ => _ end with _ => _ end = _ =>
        destruct g as [[[r nl1] w1]|]; [|done]
    end.
    match goal with |- context [if ?c <? 0 then _ else _] => destruct (c <? 0) end;
      [done | by apply getNetwork_loop_known_later].
  - match goal with |- context [if ?c <? 0 then _ else _] => destruct (c <? 0) end;
      [done | by apply getNetwork_loop_known_later].
Qed.

Lemma getNetwork_shows_interface_once_witness :
  ifa_family eth0_v4 <> ifa_family eth0_v6
  /\ getNetwork_loop one_ethernet [eth0_v4; lo_v4; eth0_v6]
       31 [] "" "" {| id := 28; wlanStatsResult := 0 |} {| ifindex := 0; signal := 0 |}
     = Some ("e2:1000M ", {| id := 28; wlanStatsResult := 0 |},
             {| ifindex := 0; signal := 0 |}).
Proof.
  split; [discriminate|].
  transitivity (getNetwork_loop one_ethernet (eth0_v4 :: [lo_v4] ++ []) 31 [] "" ""
                  {| id := 28; wlanStatsResult := 0 |} {| ifindex := 0; signal := 0 |}).
  - apply (getNetwork_shows_interface_once one_ethernet eth0_v4 eth0_v6 [lo_v4] []
             31 [] "" "" {| id := 28; wlanStatsResult := 0 |}
             {| ifindex := 0; signal := 0 |}); [reflexivity | reflexivity | simpl; lia].
  - reflexivity.
Defined.
